(** * face_analysis_pytorch: the training orchestrator and the prediction loader

    A shallow embedding of [train.py] (class [Train]) and of
    [data/data_loader_predict.py] (classes [ImageList] and
    [PredictionDataLoader]), followed by the properties of the
    specification that were checked against it.

    Conventions of the embedding.
    - Python floats are idealised: a finite float is an exact rational
      ([Q]), next to the two infinities and NaN ([pyfloat]).  Rounding
      ([round], [np.round]) is round-half-to-even on the exact value.  What
      depends on the binary rounding of a float (which of two neighbouring
      decimals a quotient is rounded to) is not decided by this
      idealisation: the properties of the scores bound them to half a unit
      of their last place.
    - A Python exception is a value of [exn]; a method is a function in the
      monad [M], which threads the mutable part of the trainer ([State]) and
      keeps it when an exception is raised.
    - What the file imports from torch, numpy, sklearn and from modules of
      the project that are not part of the two files above is a field of the
      class [Collaborators]. *)

From Stdlib Require Import Ascii QArith Qround Qabs Lqa.
From stdpp Require Import base option list strings gmap.

Local Open Scope string_scope.

(** ** Numbers *)

(** A Python float. *)
Inductive pyfloat : Type :=
  | NegInf
  | Fin (q : Q)
  | PosInf
  | NaN.

Definition Qltb (x y : Q) : bool := negb (Qle_bool y x).

(** [a > b] on floats: NaN compares false with everything. *)
Definition fgt (a b : pyfloat) : bool :=
  match a, b with
  | NaN, _ | _, NaN => false
  | NegInf, _ => false
  | _, PosInf => false
  | Fin x, Fin y => Qltb y x
  | Fin _, NegInf => true
  | PosInf, _ => true
  end.

(** [a < b] on floats. *)
Definition flt (a b : pyfloat) : bool := fgt b a.

(** [float('Inf')] *)
Definition float_Inf : pyfloat := PosInf.

(** [x * -1] *)
Definition fneg (x : pyfloat) : pyfloat :=
  match x with
  | NegInf => PosInf
  | Fin q => Fin (- q)
  | PosInf => NegInf
  | NaN => NaN
  end.

Definition is_finite (x : pyfloat) : bool :=
  match x with Fin _ => true | _ => false end.

(** Round half to even, the rounding mode of [round] and [np.round]. *)
Definition Qround_half_even (q : Q) : Z :=
  let f := Qfloor q in
  match (q - inject_Z f ?= 1 # 2)%Q with
  | Lt => f
  | Gt => (f + 1)%Z
  | Eq => if Z.even f then f else (f + 1)%Z
  end.

(** [round(q, ndigits)] *)
Definition py_round (q : Q) (ndigits : nat) : Q :=
  (inject_Z (Qround_half_even (q * inject_Z (10 ^ Z.of_nat ndigits)))
   / inject_Z (10 ^ Z.of_nat ndigits))%Q.

Definition Qsum (l : list Q) : Q := foldr Qplus 0%Q l.

Definition Qabs_diff (a b : Q) : Q := Qabs (a - b).

(** ** Exceptions and the monad of methods *)

Inductive exn : Type :=
  | AttributeError (attr : string)
  | NameError (name : string)
  | UnboundLocalError (name : string)
  | KeyError (key : string)
  | TypeError (msg : string)
  | ValueError (msg : string)
  | AxisError
  | IndexError
  | ZeroDivisionError
  | OSError (msg : string).

Inductive result (A : Type) : Type :=
  | Ok (a : A)
  | Raise (e : exn).
Arguments Ok {A} a.
Arguments Raise {A} e.

Definition is_ok {A} (r : result A) : bool :=
  match r with Ok _ => true | Raise _ => false end.

(** Pure code that may raise. *)
Definition rbind {A B} (r : result A) (k : A -> result B) : result B :=
  match r with
  | Ok a => k a
  | Raise e => Raise e
  end.

(** A method of an object with mutable state [S]: it may change the state
    and may raise; the state reached is kept in both cases. *)
Definition M (S A : Type) : Type := S -> result A * S.

Definition ret {S A} (a : A) : M S A := fun s => (Ok a, s).
Definition raise {S A} (e : exn) : M S A := fun s => (Raise e, s).
Definition bind {S A B} (m : M S A) (k : A -> M S B) : M S B :=
  fun s =>
    match m s with
    | (Ok a, s') => k a s'
    | (Raise e, s') => (Raise e, s')
    end.
Definition get {S} : M S S := fun s => (Ok s, s).
Definition modify {S} (f : S -> S) : M S unit := fun s => (Ok tt, f s).
Definition lift {S A} (r : result A) : M S A := fun s => (r, s).

(** A name that is neither assigned in the function nor bound in the
    module. *)
Definition unbound {S A} (name : string) : M S A := raise (NameError name).

Declare Scope py_scope.
Delimit Scope py_scope with py.
Notation "x <- c1 ;; c2" := (bind c1 (fun x => c2))
  (at level 100, c1 at next level, right associativity) : py_scope.
Notation "c1 ;; c2" := (bind c1 (fun _ => c2))
  (at level 100, right associativity) : py_scope.

(** [for x in xs: acc = body(acc, x)] *)
Fixpoint for_each {S A X} (body : A -> X -> M S A) (xs : list X) (acc : A)
    : M S A :=
  match xs with
  | [] => ret acc
  | x :: xs' => bind (body acc x) (for_each body xs')
  end.

(** [a % b] on non-negative integers. *)
Definition py_mod (a b : nat) : result nat :=
  match b with
  | O => Raise ZeroDivisionError
  | S _ => Ok (a mod b)
  end.

(** ** Labels and batches *)

(** The ground truth of one sample: a class index (gender, race) or a
    multi-bin vector (age). *)
Inductive Label : Type :=
  | ClassLabel (c : nat)
  | VecLabel (v : list Q).

(** The classes the dispatch table of [__init__] maps to. *)
Inductive Head : Type :=
  | RaceHead
  | GenderHead
  | AgeHead
  | ConfiguredHead (name : string).

(** The run configuration, as far as [train.py] reads it.  [batch_size] is
    positive: the data loaders of torch refuse any other value. *)
Record Config : Type := mkConfig {
  attribute : string;
  recognition_head : Head;
  train_source : string;
  train_list : string;
  val_source : string;
  val_list : string;
  lr : Q;
  resume : option string;
  pretrained : option string;
  lr_plateau : bool;
  max_or_min : string;
  epochs : nat;
  reduce_lr_epochs : list nat;
  loss : list (list Q) -> list Label -> option (list Q) -> Q;
  batch_size : positive;
  embedding_size : nat
}.

(** One batch of a data loader: at least one (image, label) pair. *)
Record Batch (Img : Type) : Type := mkBatch {
  b_first : Img * Label;
  b_rest : list (Img * Label)
}.
Arguments mkBatch {Img} b_first b_rest.
Arguments b_first {Img} b.
Arguments b_rest {Img} b.

Definition b_samples {Img} (b : Batch Img) : list (Img * Label) :=
  b_first b :: b_rest b.
Definition b_imgs {Img} (b : Batch Img) : list Img := (b_samples b).*1.
Definition b_labels {Img} (b : Batch Img) : list Label := (b_samples b).*2.

(** A [CustomDataLoader]: [len(loader)], the batches of its [n]-th
    iteration (the order may differ between iterations when it shuffles) and
    [loader.dataset.targets]. *)
Record Loader (Img : Type) : Type := mkLoader {
  ld_len : nat;
  ld_iter : nat -> list (Batch Img);
  ld_targets : list nat
}.
Arguments mkLoader {Img} ld_len ld_iter ld_targets.
Arguments ld_len {Img} l.
Arguments ld_iter {Img} l n.
Arguments ld_targets {Img} l.

(** ** What [train.py] imports *)

(** The network, the loss and the optimizer are taken where they return: a
    forward pass, a loss or an update that raises (on a label outside the
    classes of the head, say) is not modelled. *)
Class Collaborators : Type := {
  (** an input image *)
  Img : Type;
  (** an embedding of the backbone *)
  Emb : Type;
  (** the weights of backbone and head with the buffers of the optimizer *)
  Net : Type;
  (** a [ReduceLROnPlateau] object *)
  Sched : Type;
  (** an [EarlyStop] object *)
  Stopper : Type;
  (** [ResNet(depth, drop_ratio, net_mode)] and the selected head *)
  new_net : Config -> Head -> Net;
  (** [load_state(model, head, optimizer, path, weights_only)] *)
  load_state : Net -> string -> bool -> result Net;
  (** [CustomDataLoader(config, source, list, *flags)] *)
  CustomDataLoader :
    Config -> string -> string -> option (bool * bool * bool) -> Loader Img;
  (** [self.model(imgs)]; the flag is the training mode of the module *)
  model_forward : Net -> bool -> list Img -> list Emb;
  (** [self.head(embeddings)] *)
  head_forward : Net -> bool -> list Emb -> list (list Q);
  model_forward_length :
    forall n mode xs, length (model_forward n mode xs) = length xs;
  head_forward_length :
    forall n mode es, length (head_forward n mode es) = length es;
  (** [loss.backward(); optimizer.step()] under the given learning rates *)
  sgd_step : Net -> list Q -> Batch Img -> option (list Q) -> Net;
  (** [ReduceLROnPlateau(optimizer, mode=..., factor=0.1, patience=3, ...)] *)
  new_scheduler : string -> Sched;
  (** [scheduler.step(metric)]: the new scheduler and learning rates *)
  scheduler_step : Sched -> pyfloat -> list Q -> Sched * list Q;
  (** [EarlyStop(mode=...)], [early_stop(metric)] and [early_stop.stop] *)
  new_early_stop : string -> Stopper;
  early_stop_call : Stopper -> pyfloat -> Stopper;
  early_stop_stop : Stopper -> bool;
  (** the module-level name [evaluate] read by [evaluate_recognition];
      [train.py] binds no such name, which is [None] here *)
  module_evaluate : option (list Emb -> list bool -> nat -> list Q)
}.

Section Trainer.
Context `{C : Collaborators}.

(** The attributes of a constructed [Train] object that never change. *)
Record Train : Type := mkTrain {
  config : Config;
  head : Head;
  train_loader : Loader Img;
  weights : option (list Q);
  val_loader : option (Loader Img);
  agedb_30 : option (list Img * list bool);
  cfp_fp : option (list Img * list bool);
  lfw : option (list Img * list bool);
  tensorboard_loss_every : nat;
  evaluate_every : nat;
  save_every : nat
}.

(** What [save_state] writes: weights and optimizer, score and step. *)
Record Checkpoint : Type := mkCheckpoint {
  ck_net : Net;
  ck_param_groups : list Q;
  ck_score : pyfloat;
  ck_step : nat
}.

(** The mutable part: network, optimizer, scheduler, early stopping, the
    tensorboard and checkpoint sinks.  [opt_steps] and [batch_log] are
    instrumentation: the number of [optimizer.step()] calls so far and, for
    each completed training batch, the step counter and [opt_steps] at that
    moment (most recent first).  [iters] counts the loader iterations
    started so far. *)
Record State : Type := mkState {
  net : Net;
  model_training : bool;
  head_training : bool;
  param_groups : list Q;
  scheduler : option Sched;
  early_stop : Stopper;
  saved : list Checkpoint;
  board : list (string * pyfloat * nat);
  iters : nat;
  opt_steps : nat;
  batch_log : list (nat * nat)
}.

Definition set_net (f : Net -> Net) (s : State) : State :=
  mkState (f (net s)) (model_training s) (head_training s) (param_groups s)
    (scheduler s) (early_stop s) (saved s) (board s) (iters s) (opt_steps s)
    (batch_log s).
Definition set_model_training (b : bool) (s : State) : State :=
  mkState (net s) b (head_training s) (param_groups s)
    (scheduler s) (early_stop s) (saved s) (board s) (iters s) (opt_steps s)
    (batch_log s).
Definition set_head_training (b : bool) (s : State) : State :=
  mkState (net s) (model_training s) b (param_groups s)
    (scheduler s) (early_stop s) (saved s) (board s) (iters s) (opt_steps s)
    (batch_log s).
Definition set_param_groups (f : list Q -> list Q) (s : State) : State :=
  mkState (net s) (model_training s) (head_training s) (f (param_groups s))
    (scheduler s) (early_stop s) (saved s) (board s) (iters s) (opt_steps s)
    (batch_log s).
Definition set_scheduler (x : option Sched) (s : State) : State :=
  mkState (net s) (model_training s) (head_training s) (param_groups s)
    x (early_stop s) (saved s) (board s) (iters s) (opt_steps s)
    (batch_log s).
Definition set_early_stop (f : Stopper -> Stopper) (s : State) : State :=
  mkState (net s) (model_training s) (head_training s) (param_groups s)
    (scheduler s) (f (early_stop s)) (saved s) (board s) (iters s)
    (opt_steps s) (batch_log s).
Definition set_saved (f : list Checkpoint -> list Checkpoint) (s : State)
    : State :=
  mkState (net s) (model_training s) (head_training s) (param_groups s)
    (scheduler s) (early_stop s) (f (saved s)) (board s) (iters s)
    (opt_steps s) (batch_log s).
Definition set_board
    (f : list (string * pyfloat * nat) -> list (string * pyfloat * nat))
    (s : State) : State :=
  mkState (net s) (model_training s) (head_training s) (param_groups s)
    (scheduler s) (early_stop s) (saved s) (f (board s)) (iters s)
    (opt_steps s) (batch_log s).
Definition set_iters (f : nat -> nat) (s : State) : State :=
  mkState (net s) (model_training s) (head_training s) (param_groups s)
    (scheduler s) (early_stop s) (saved s) (board s) (f (iters s))
    (opt_steps s) (batch_log s).
Definition set_opt_steps (f : nat -> nat) (s : State) : State :=
  mkState (net s) (model_training s) (head_training s) (param_groups s)
    (scheduler s) (early_stop s) (saved s) (board s) (iters s)
    (f (opt_steps s)) (batch_log s).
Definition set_batch_log (f : list (nat * nat) -> list (nat * nat))
    (s : State) : State :=
  mkState (net s) (model_training s) (head_training s) (param_groups s)
    (scheduler s) (early_stop s) (saved s) (board s) (iters s) (opt_steps s)
    (f (batch_log s)).


Local Open Scope py_scope.

Abbreviation T := (M State).

(** *** The small operations on the collaborators *)

(** [self.model.train()] / [self.model.eval()] *)
Definition model_set_mode (training : bool) : T unit :=
  modify (set_model_training training).

(** [self.head.train()] / [self.head.eval()] *)
Definition head_set_mode (training : bool) : T unit :=
  modify (set_head_training training).

(** [self.writer.add_scalar(tag, value, step)] *)
Definition add_scalar (tag : string) (value : pyfloat) (step : nat) : T unit :=
  modify (set_board (cons (tag, value, step))).

(** [iter(loader)] *)
Definition iter_loader (ld : Loader Img) : T (list (Batch Img)) :=
  s <- get ;;
  modify (set_iters S) ;;
  ret (ld_iter ld (iters s)).

(** [self.head(self.model(imgs))] in the current modes *)
Definition forward (imgs : list Img) : T (list (list Q)) :=
  s <- get ;;
  ret (head_forward (net s) (head_training s)
         (model_forward (net s) (model_training s) imgs)).

(** [save_state(self.model, self.head, self.optimizer, self.config,
    val_acc, step)] *)
Definition save_state (val_acc : pyfloat) (step : nat) : T unit :=
  modify (fun s =>
    set_saved (cons (mkCheckpoint (net s) (param_groups s) val_acc step)) s).

(** [self.optimizer.step()], after [loss.backward()] *)
Definition optimizer_step (self : Train) (b : Batch Img) : T unit :=
  modify (fun s =>
    set_opt_steps S
      (set_net (fun n => sgd_step n (param_groups s) b (weights self)) s)).

(** *** [save_model], lines 157-164 *)

Definition improves (mode : string) (val_acc best_acc : pyfloat) : bool :=
  (String.eqb mode "max" && fgt val_acc best_acc)
  || (String.eqb mode "min" && flt val_acc best_acc).

Definition save_model (self : Train) (val_acc best_acc : pyfloat)
    (step best_step : nat) : T (pyfloat * nat) :=
  if improves (max_or_min (config self)) val_acc best_acc then
    save_state val_acc step ;;
    ret (val_acc, step)
  else ret (best_acc, best_step).

(** *** [reduce_lr], lines 166-170 *)

Definition reduce_lr : T unit :=
  modify (set_param_groups (map (fun lr => (lr / 10)%Q))).

(** *** [tensorboard_val], lines 172-176 *)

Definition tensorboard_val (self : Train) (accuracy : pyfloat) (step : nat)
    (loss : Q) (dataset : string) : T unit :=
  add_scalar (dataset ++ "val_acc") accuracy step ;;
  if negb (String.eqb (attribute (config self)) "recognition") then
    add_scalar "val_loss" (Fin loss) step
  else ret tt.

(** *** [evaluate_attribute], lines 199-236 *)

(** [np.round(row, 0)] then [np.sum(..., axis=1)] of one row *)
Definition round_sum (row : list Q) : Q :=
  Qsum (map (fun x => inject_Z (Qround_half_even x)) row).

(** [np.sum(y_true, axis=1)]: every row must be a vector *)
Fixpoint np_sum_axis1 (y_true : list Label) : result (list Q) :=
  match y_true with
  | [] => Ok []
  | VecLabel v :: rest => rbind (np_sum_axis1 rest) (fun r => Ok (Qsum v :: r))
  | ClassLabel _ :: _ => Raise AxisError
  end.

(** [sklearn.metrics.mean_absolute_error(y_true, y_pred)] *)
Definition mean_absolute_error (y_true y_pred : list Q) : result Q :=
  if negb (Nat.eqb (length y_true) (length y_pred)) then
    Raise (ValueError "inconsistent numbers of samples")
  else if Nat.eqb (length y_true) 0 then
    Raise (ValueError "at least one sample is required")
  else
    Ok (Qsum (zip_with Qabs_diff y_true y_pred)
        / inject_Z (Z.of_nat (length y_true)))%Q.

(** The index of the first maximal entry of a row. *)
Fixpoint argmax_from (best : Q) (besti i : nat) (row : list Q) : nat :=
  match row with
  | [] => besti
  | x :: rest =>
      if Qltb best x then argmax_from x i (S i) rest
      else argmax_from best besti (S i) rest
  end.

Definition argmax (row : list Q) : result nat :=
  match row with
  | [] => Raise IndexError
  | x :: rest => Ok (argmax_from x 0 1 rest)
  end.

(** [torch.max(all_outputs, 1)], the indices *)
Fixpoint torch_max_dim1 (all_outputs : list (list Q)) : result (list nat) :=
  match all_outputs with
  | [] => Ok []
  | row :: rest =>
      rbind (argmax row) (fun i =>
      rbind (torch_max_dim1 rest) (fun r => Ok (i :: r)))
  end.

(** [y_true == y_pred], element by element, for class labels.  A vector
    label against a class index, which numpy would try to broadcast, is
    outside what the classification tasks feed and is not modelled: it
    raises here. *)
Fixpoint np_equal (y_true : list Label) (y_pred : list nat)
    : result (list bool) :=
  match y_true, y_pred with
  | [], [] => Ok []
  | ClassLabel c :: ts, p :: ps =>
      rbind (np_equal ts ps) (fun r => Ok (Nat.eqb c p :: r))
  | _, _ => Raise (ValueError "operands could not be broadcast together")
  end.

(** [np.sum] of a boolean array *)
Definition np_count (bs : list bool) : nat :=
  length (filter (fun b => b = true) bs).

(** Lines 222-234: the score of the accumulated outputs. *)
Definition attribute_score (self : Train) (y_true : list Label)
    (all_outputs : list (list Q)) : result pyfloat :=
  if String.eqb (attribute (config self)) "age" then
    let y_pred := map round_sum all_outputs in
    rbind (np_sum_axis1 y_true) (fun y_true =>
    rbind (mean_absolute_error y_true y_pred) (fun mae =>
    Ok (Fin (py_round mae 4))))
  else
    rbind (torch_max_dim1 all_outputs) (fun y_pred =>
    rbind (np_equal y_true y_pred) (fun hits =>
    match length y_pred with
    | O => Ok NaN
    | S _ =>
        Ok (Fin (py_round (Z.of_nat (np_count hits)
                           # Pos.of_nat (length y_pred)) 4))
    end)).

(** The accumulators of the validation loop, lines 203-215: [y_true],
    [all_outputs] and the loop variables [outputs] and [labels], which are
    unbound until the first iteration. *)
Record Accum : Type := mkAccum {
  y_true : list Label;
  all_outputs : list (list Q);
  last_batch : option (list (list Q) * list Label)
}.

Definition val_loop_body (acc : Accum) (b : Batch Img) : T Accum :=
  let labels := b_labels b in
  outputs <- forward (b_imgs b) ;;
  ret (mkAccum (y_true acc ++ labels) (all_outputs acc ++ outputs)
         (Some (outputs, labels))).

Definition evaluate_attribute (self : Train) : T (pyfloat * Q) :=
  model_set_mode false ;;
  head_set_mode false ;;
  match val_loader self with
  | None => raise (AttributeError "val_loader")
  | Some ld =>
      batches <- iter_loader ld ;;
      acc <- for_each val_loop_body batches (mkAccum [] [] None) ;;
      match last_batch acc with
      | None => raise (UnboundLocalError "outputs")
      | Some (outputs, labels) =>
          let loss :=
            match weights self with
            | Some w => py_round (loss (config self) outputs labels (Some w)) 4
            | None => py_round (loss (config self) outputs labels None) 4
            end in
          accuracy <- lift (attribute_score self (y_true acc) (all_outputs acc)) ;;
          ret (accuracy, loss)
      end
  end.

(** *** [evaluate_recognition], lines 238-255 *)

(** Lines 244-251: the embeddings of [samples], computed [batch_size] at a
    time, the last part possibly shorter.  Every turn of the [while] loop
    consumes [batch_size >= 1] samples, so [S (length samples)] turns
    are enough.  The backbone is taken to return rows of the width
    [embedding_size] that line 241 allocates; with another width line 246
    raises, which is not modelled. *)
Fixpoint embed_while (turns : nat) (model : list Img -> list Emb)
    (batch_size : nat) (samples : list Img) : list Emb :=
  match turns with
  | O => []
  | S turns' =>
      if Nat.leb batch_size (length samples) then
        model (take batch_size samples)
        ++ embed_while turns' model batch_size (drop batch_size samples)
      else if Nat.ltb 0 (length samples) then model samples
      else []
  end.

(** [accuracy.mean()] *)
Definition np_mean (xs : list Q) : pyfloat :=
  match xs with
  | [] => NaN
  | _ => Fin (Qsum xs / inject_Z (Z.of_nat (length xs)))%Q
  end.

Definition evaluate_recognition (self : Train) (samples : list Img)
    (issame : list bool) (nrof_folds : nat) : T (pyfloat * nat) :=
  model_set_mode false ;;
  s <- get ;;
  let embeddings :=
    embed_while (S (length samples)) (model_forward (net s) (model_training s))
      (Pos.to_nat (batch_size (config self))) samples in
  match module_evaluate with
  | None => unbound "evaluate"
  | Some evaluate =>
      let accuracy := evaluate embeddings issame nrof_folds in
      ret (np_mean accuracy, 0)
  end.

(** *** [evaluate], lines 178-197 *)

(** [self.<name>] for the attributes that only some objects have *)
Definition getattr {A} (name : string) (field : option A) : T A :=
  match field with
  | Some v => ret v
  | None => raise (AttributeError name)
  end.

Definition evaluate (self : Train) (step : nat) : T (pyfloat * Q) :=
  if negb (String.eqb (attribute (config self)) "recognition") then
    r <- evaluate_attribute self ;;
    let '(val_acc, val_loss) := r in
    tensorboard_val self val_acc step val_loss "" ;;
    ret (val_acc, val_loss)
  else
    d <- getattr "agedb_30" (agedb_30 self) ;;
    agedb_30_accuracy <- evaluate_recognition self d.1 d.2 10 ;;
    accuracy <- unbound "accuracy" ;;
    tensorboard_val self accuracy step 0 "agedb_30_" ;;
    d <- getattr "lfw" (lfw self) ;;
    lfw_accuracy <- evaluate_recognition self d.1 d.2 10 ;;
    accuracy <- unbound "accuracy" ;;
    tensorboard_val self accuracy step 0 "lfw_" ;;
    d <- getattr "cfp_fp" (cfp_fp self) ;;
    cfp_fp_accuracy <- evaluate_recognition self d.1 d.2 10 ;;
    accuracy <- unbound "accuracy" ;;
    tensorboard_val self accuracy step 0 "cfp_fp_" ;;
    (* the three results are pairs: [+] concatenates them, [/ 3] raises *)
    val_acc <- (raise (TypeError "unsupported operand type(s) for /")
                : T pyfloat) ;;
    accuracy <- unbound "accuracy" ;;
    tensorboard_val self accuracy step 0 "" ;;
    (* [return self.evaluate_recognition()] *)
    raise (TypeError "evaluate_recognition() missing required arguments").

(** *** [run], lines 94-155 *)

(** The local variables of [run]. *)
Record Locals : Type := mkLocals {
  running_loss : Q;
  step : nat;
  val_acc : pyfloat;
  val_loss : Q;
  best_acc : pyfloat;
  best_step : nat
}.

(** Lines 110-141, one training batch.  The progress bar of lines 140-141
    is not modelled. *)
Definition train_batch (self : Train) (l : Locals) (b : Batch Img) : T Locals :=
  let labels := b_labels b in
  outputs <- forward (b_imgs b) ;;
  let loss :=
    match weights self with
    | Some w => loss (config self) outputs labels (Some w)
    | None => loss (config self) outputs labels None
    end in
  let running := (running_loss l + loss)%Q in
  optimizer_step self b ;;
  r <- lift (py_mod (step l) (tensorboard_loss_every self)) ;;
  running <-
    (if Nat.eqb r 0 then
       let loss_board :=
         (running / inject_Z (Z.of_nat (tensorboard_loss_every self)))%Q in
       add_scalar "train_loss" (Fin loss_board) (step l) ;;
       ret 0%Q
     else ret running) ;;
  r <- lift (py_mod (step l) (evaluate_every self)) ;;
  l' <-
    (if Nat.eqb r 0 && negb (Nat.eqb (step l) 0) then
       v <- evaluate self (step l) ;;
       model_set_mode true ;;
       head_set_mode true ;;
       best <- save_model self v.1 (best_acc l) (step l) (best_step l) ;;
       ret (mkLocals running (step l) v.1 v.2 best.1 best.2)
     else
       ret (mkLocals running (step l) (val_acc l) (val_loss l)
              (best_acc l) (best_step l))) ;;
  let next := S (step l') in
  modify (fun s => set_batch_log (cons (next, opt_steps s)) s) ;;
  ret (mkLocals (running_loss l') next (val_acc l') (val_loss l')
         (best_acc l') (best_step l')).

(** Lines 143-146, the learning rate at the end of an epoch. *)
Definition end_of_epoch (self : Train) (epoch : nat) (val_acc : pyfloat)
    : T unit :=
  if bool_decide (epoch ∈ reduce_lr_epochs (config self))
     && negb (lr_plateau (config self)) then reduce_lr
  else
    s <- get ;;
    sch <- getattr "scheduler" (scheduler s) ;;
    let '(sch', lrs) := scheduler_step sch val_acc (param_groups s) in
    modify (fun s => set_scheduler (Some sch') (set_param_groups (fun _ => lrs) s)).

(** Lines 107-151, the epochs that remain; [true] from the early-stop
    monitor leaves the loop. *)
Fixpoint run_epochs (self : Train) (remaining : list nat) (l : Locals)
    : T Locals :=
  match remaining with
  | [] => ret l
  | epoch :: later =>
      batches <- iter_loader (train_loader self) ;;
      l <- for_each (train_batch self) batches l ;;
      end_of_epoch self epoch (val_acc l) ;;
      modify (set_early_stop (fun e => early_stop_call e (val_acc l))) ;;
      s <- get ;;
      if early_stop_stop (early_stop s) then ret l
      else run_epochs self later l
  end.

(** Lines 102-105. *)
Definition initial_best (self : Train) : pyfloat :=
  let best_acc := float_Inf in
  if String.eqb (max_or_min (config self)) "max" then fneg best_acc
  else best_acc.

Definition initial_locals (self : Train) : Locals :=
  mkLocals 0 0 (Fin 0) 0 (initial_best self) 0.

(** [run]; the result is what line 155 prints: [best_acc], which line 154
    binds to the whole pair returned by [save_model], and [best_step]. *)
Definition run (self : Train) : T (pyfloat * nat * nat) :=
  model_set_mode true ;;
  head_set_mode true ;;
  l <- run_epochs self (seq 0 (epochs (config self))) (initial_locals self) ;;
  v <- evaluate self (step l) ;;
  best_acc <- save_model self v.1 (best_acc l) (step l) (best_step l) ;;
  ret (best_acc, best_step l).

(** *** [__init__], lines 22-92 *)

(** What an attribute of the object under construction holds. *)
Inductive Attr : Type :=
  | AConfig (c : Config)
  | AWriter
  | AModel
  | AMethod
  | ATable (t : gmap string Head).

(** The attributes of the class [Train]: its methods. *)
Definition Train_methods : list string :=
  ["__init__"; "run"; "save_model"; "reduce_lr"; "tensorboard_val";
   "evaluate"; "evaluate_attribute"; "evaluate_recognition"; "save_file"].

Definition Train_class_dict : gmap string Attr :=
  list_to_map ((fun m => (m, AMethod)) <$> Train_methods).

(** [self.<name>]: the instance dictionary, then the class. *)
Definition object_getattr (instance : gmap string Attr) (name : string)
    : result Attr :=
  match instance !! name with
  | Some v => Ok v
  | None =>
      match Train_class_dict !! name with
      | Some v => Ok v
      | None => Raise (AttributeError name)
      end
  end.

(** Lines 23-33: the head of the run.  [ATTR_HEAD] is a local variable of
    [__init__]; line 33 reads it as an attribute of [self].  Writing the
    configuration to a file (line 25) is not modelled. *)
Definition init_head (cfg : Config) : result Head :=
  let self : gmap string Attr := <["config" := AConfig cfg]> ∅ in
  let ATTR_HEAD : gmap string Head :=
    <["race" := RaceHead]> (<["gender" := GenderHead]>
      (<["age" := AgeHead]> (<["recognition" := recognition_head cfg]> ∅))) in
  let self := <["writer" := AWriter]> self in
  let self := <["model" := AModel]> self in
  rbind (object_getattr self "ATTR_HEAD") (fun table =>
    match table with
    | ATable t =>
        match t !! attribute cfg with
        | Some head_class => Ok head_class
        | None => Raise (KeyError (attribute cfg))
        end
    | _ => Raise (TypeError "object is not subscriptable")
    end).

(** [np.unique(targets, return_counts=True)[1]]: the number of occurrences
    of each value that occurs, by increasing value. *)
Definition np_unique_counts (targets : list nat) : list nat :=
  filter (fun c => 0 < c)
    ((fun v => length (filter (fun t => t = v) targets))
       <$> seq 0 (S (max_list targets))).

(** Lines 52-54: [np.max(counts) / counts], as exact quotients; the code
    stores them rounded to [float32]. *)
Definition class_weights (targets : list nat) : result (list Q) :=
  match np_unique_counts targets with
  | [] => Raise (ValueError "zero-size array to reduction operation maximum")
  | counts =>
      Ok ((fun c => Z.of_nat (max_list counts) # Pos.of_nat c) <$> counts)
  end.

(** [if path:] on an optional path *)
Definition if_path (path : option string) (net : Net)
    (f : string -> result Net) : result Net :=
  match path with
  | None | Some "" => Ok net
  | Some p => f p
  end.

(** Lines 35-92, with the head selected. *)
Definition init_rest (cfg : Config) (head_class : Head)
    : result (Train * State) :=
  let net := new_net cfg head_class in
  let train_loader :=
    CustomDataLoader cfg (train_source cfg) (train_list cfg) None in
  rbind
    (if bool_decide (attribute cfg ∈ ["race"; "gender"]) then
       rbind (class_weights (ld_targets train_loader)) (fun w => Ok (Some w))
     else Ok None) (fun weights =>
  rbind
    (if negb (String.eqb (attribute cfg) "recognition") then
       Ok (CustomDataLoader cfg (val_source cfg) (val_list cfg)
             (Some (false, false, false)))
     else (* [get_val_pair] is not bound in the module *)
       Raise (NameError "get_val_pair")) (fun val_loader =>
  let param_groups := [lr cfg; lr cfg; lr cfg] in
  rbind (if_path (resume cfg) net (fun p => load_state net p false)) (fun net =>
  rbind (if_path (pretrained cfg) net (fun p => load_state net p true)) (fun net =>
  let tensorboard_loss_every := Nat.max (ld_len train_loader / 100) 1 in
  let evaluate_every := Nat.max (ld_len train_loader / 5) 1 in
  let save_every := Nat.max (ld_len train_loader / 5) 1 in
  let scheduler :=
    if lr_plateau cfg then Some (new_scheduler (max_or_min cfg)) else None in
  let early_stop := new_early_stop (max_or_min cfg) in
  Ok (mkTrain cfg head_class train_loader weights (Some val_loader)
        None None None tensorboard_loss_every evaluate_every save_every,
      mkState net true true param_groups scheduler early_stop [] [] 0 0 []))))).

(** [Train(config)] *)
Definition Train_init (cfg : Config) : result (Train * State) :=
  rbind (init_head cfg) (init_rest cfg).

End Trainer.

(** ** [data/data_loader_predict.py] *)

Module Predict.

(** A cell of the table that [pd.read_csv] returns and [np.array] turns
    into an array: pandas infers the type of every column, so a cell is a
    string only where its text did not parse as a number, a boolean or a
    missing value ([NA], [NaN], [null], the empty field, ...). *)
Inductive Cell : Type :=
  | CStr (s : string)
  | CInt (n : Z)
  | CFloat (x : pyfloat)
  | CBool (b : bool).

Definition is_str (c : Cell) : bool :=
  match c with CStr _ => true | _ => false end.

(** What the file imports: pandas, PIL, torchvision and torch's loader.  A
    picture is a PIL image or a tensor; the transforms of torchvision accept
    both, and each of them can raise. *)
Class Imaging : Type := {
  Pic : Type;
  (** [pd.read_csv(path, delimiter=..., header=None)]: the rows of the
      table, each with its first column apart *)
  read_csv : string -> string -> result (list (Cell * list Cell));
  (** [Image.open(path)] *)
  Image_open : string -> result Pic;
  (** [img.convert(mode)] *)
  convert : Pic -> string -> result Pic;
  (** [transforms.Resize(size)], [transforms.ToTensor()],
      [transforms.Normalize(mean, std)] *)
  Resize : nat * nat -> Pic -> result Pic;
  ToTensor : Pic -> result Pic;
  Normalize : list Q -> list Q -> Pic -> result Pic;
  (** [torch.randperm(n)] of the sampler that shuffles *)
  randperm : nat -> list nat;
  (** how the loader raises, in the consumer, the exception of a worker
      process: torch wraps it with the traceback of the worker *)
  reraise : exn -> exn
}.

Fixpoint ends_with_sep (s : string) : bool :=
  match s with
  | EmptyString => false
  | String c EmptyString => Ascii.eqb c "/"%char
  | String _ rest => ends_with_sep rest
  end.

(** [posixpath.join(a, b)] on two strings *)
Definition posix_join (a b : string) : string :=
  if String.prefix "/" b then b
  else if String.eqb a "" || ends_with_sep a then a ++ b
  else a ++ "/" ++ b.

(** [os.path.join(a, b)] with a cell for [b]: [os.fspath] accepts a string
    and raises [TypeError] for a number, a boolean or a missing value. *)
Definition path_join (a : string) (b : Cell) : result string :=
  match b with
  | CStr b => Ok (posix_join a b)
  | _ =>
      Raise (TypeError
               "join() argument must be str, bytes, or os.PathLike object")
  end.

Section Loader.
Context `{I : Imaging}.

(** [transforms.Compose(ts)(x)]: each transform is applied to the result of
    the one before it. *)
Definition Compose (ts : list (Pic -> result Pic)) (x : Pic) : result Pic :=
  foldl (fun acc t => rbind acc t) (Ok x) ts.

(** The attributes [__init__] gives an [ImageList], lines 11-21. *)
Record ImageList : Type := mkImageList {
  samples : list string;
  transform : list (Pic -> result Pic)
}.

(** The list comprehension of line 15: the names are joined in order, and
    the first that is no path raises. *)
Fixpoint join_all (source : string) (image_names : list Cell)
    : result (list string) :=
  match image_names with
  | [] => Ok []
  | image_name :: rest =>
      rbind (path_join source image_name) (fun p =>
      rbind (join_all source rest) (fun ps => Ok (p :: ps)))
  end.

Definition ImageList_init (source image_list : string) : result ImageList :=
  rbind (read_csv image_list " ") (fun image_names =>
  rbind (join_all source image_names.*1) (fun samples =>
  Ok (mkImageList samples
        [Resize (112, 112); ToTensor;
         Normalize [0.5; 0.5; 0.5]%Q [0.5; 0.5; 0.5]%Q]))).

(** [__len__], lines 23-24 *)
Definition ImageList_len (self : ImageList) : nat := length (samples self).

(** [__getitem__], lines 26-29, at the non-negative indices a sampler
    produces *)
Definition ImageList_getitem (self : ImageList) (index : nat) : result Pic :=
  match samples self !! index with
  | None => Raise IndexError
  | Some path =>
      rbind (Image_open path) (fun img =>
      rbind (convert img "RGB") (fun img =>
      Compose (transform self) img))
  end.

(** A torch [DataLoader], as far as its arguments decide what it yields. *)
Record DataLoader : Type := mkDataLoader {
  dataset : ImageList;
  dl_batch_size : Z;
  shuffle : bool;
  num_workers : Z;
  drop_last : bool
}.

(** [DataLoader(dataset, batch_size=..., shuffle=..., num_workers=...,
    drop_last=...)] with integer arguments: the number of workers is
    checked first, the batch size when the batch sampler is made. *)
Definition DataLoader_init (dataset : ImageList) (batch_size : Z)
    (shuffle : bool) (num_workers : Z) (drop_last : bool)
    : result DataLoader :=
  if (num_workers <? 0)%Z then
    Raise (ValueError "num_workers option should be non-negative")
  else if (batch_size <=? 0)%Z then
    Raise (ValueError "batch_size should be a positive integer value")
  else Ok (mkDataLoader dataset batch_size shuffle num_workers drop_last).

(** [PredictionDataLoader(batch_size, workers, source, image_list)], lines
    33-38; [pin_memory] changes no value that is yielded. *)
Definition PredictionDataLoader_init (batch_size workers : Z)
    (source image_list : string) : result DataLoader :=
  rbind (ImageList_init source image_list) (fun _dataset =>
  DataLoader_init _dataset batch_size false workers false).

(** The sampler of torch: the indices in order, or a permutation. *)
Definition sampler (dl : DataLoader) : list nat :=
  let n := ImageList_len (dataset dl) in
  if shuffle dl then randperm n else seq 0 n.

(** The batch sampler of torch: indices are collected until [batch_size]
    of them are there; what is left at the end is yielded unless
    [drop_last]. *)
Fixpoint batch_sampler (batch_size : nat) (drop_last : bool)
    (batch : list nat) (indices : list nat) : list (list nat) :=
  match indices with
  | [] => if Nat.ltb 0 (length batch) && negb drop_last then [batch] else []
  | idx :: rest =>
      let batch := (batch ++ [idx])%list in
      if Nat.eqb (length batch) batch_size then
        batch :: batch_sampler batch_size drop_last [] rest
      else batch_sampler batch_size drop_last batch rest
  end.

(** The batches of indices of one iteration. *)
Definition batch_indices (dl : DataLoader) : list (list nat) :=
  batch_sampler (Z.to_nat (dl_batch_size dl)) (drop_last dl) [] (sampler dl).

(** [[dataset[i] for i in batch]]; the pictures of a batch are kept as the
    list that the default collation stacks. *)
Fixpoint fetch (self : ImageList) (batch : list nat) : result (list Pic) :=
  match batch with
  | [] => Ok []
  | i :: rest =>
      rbind (ImageList_getitem self i) (fun x =>
      rbind (fetch self rest) (fun xs => Ok (x :: xs)))
  end.

(** What reaches the consumer of a batch: with worker processes an
    exception is raised again from its wrapper. *)
Definition deliver {A} (num_workers : Z) (r : result A) : result A :=
  match r with
  | Ok a => Ok a
  | Raise e => Raise (if (num_workers =? 0)%Z then e else reraise e)
  end.

(** [iter(loader)]: the batches in the order of the batch sampler, each
    one fetched when its turn comes. *)
Definition DataLoader_iter (dl : DataLoader) : list (result (list Pic)) :=
  (fun batch => deliver (num_workers dl) (fetch (dataset dl) batch))
    <$> batch_indices dl.

(** The picture named [name] under [source] as the specification describes
    an item: opened, converted to RGB, resized to 112 x 112, made a tensor
    and normalised with mean and deviation 0.5 on each channel. *)
Definition item (source name : string) : result Pic :=
  rbind (Image_open (posix_join source name)) (fun img =>
  rbind (convert img "RGB") (fun img =>
  rbind (Resize (112, 112) img) (fun img =>
  rbind (ToTensor img) (fun img =>
  Normalize [0.5; 0.5; 0.5]%Q [0.5; 0.5; 0.5]%Q img)))).

(** Every batch but the last one is full. *)
Definition full_but_last (batch_size : nat) (batches : list (list nat)) : Prop :=
  forall k b, batches !! k = Some b -> S k < length batches ->
              length b = batch_size.

(** The indices of the [k]-th batch of [n] items in order. *)
Definition slice (batch_size n k : nat) : list nat :=
  seq (k * batch_size) (Nat.min batch_size (n - k * batch_size)).

(** [ceil(n / batch_size)] *)
Definition batch_count (batch_size n : nat) : nat :=
  (n + batch_size - 1) / batch_size.

End Loader.
End Predict.

(** ** Specification vocabulary *)

(** The strict order of floats, NaN apart: [-inf < q < +inf]. *)
Definition pylt (a b : pyfloat) : Prop :=
  match a, b with
  | NegInf, Fin _ | NegInf, PosInf | Fin _, PosInf => True
  | Fin x, Fin y => (x < y)%Q
  | _, _ => False
  end.

(** A score that improves on the best one, in the words of the
    specification. *)
Definition improvement (mode : string) (val_acc best_acc : pyfloat) : Prop :=
  (mode = "max" /\ pylt best_acc val_acc)
  \/ (mode = "min" /\ pylt val_acc best_acc).

(** Partial and exceptional correctness of a method: from a state in [P] it
    ends with a result and state in [Q], or raises in a state in [R]. *)
Definition hoare {S A} (P : S -> Prop) (m : M S A) (Q : A -> S -> Prop)
    (R : exn -> S -> Prop) : Prop :=
  forall s, P s ->
    match m s with
    | (Ok a, s') => Q a s'
    | (Raise e, s') => R e s'
    end.

(** [i] is the first position of a largest entry of [row]. *)
Definition first_maximum (row : list Q) (i : nat) : Prop :=
  exists x, row !! i = Some x
            /\ (forall y, y ∈ row -> (y <= x)%Q)
            /\ (forall j y, j < i -> row !! j = Some y -> (y < x)%Q).

Section TrainerSpec.
Context `{C : Collaborators}.

(** The evaluations of a run, in order: each score goes through
    [save_model] with the best score and step it returned last, as lines
    134-137 do. *)
Definition checkpointing (self : Train) (evals : list (pyfloat * nat))
    (best : pyfloat * nat) : M State (pyfloat * nat) :=
  for_each (fun best ev => save_model self ev.1 best.1 ev.2 best.2) evals best.

(** The checkpoint [save_state] writes in state [s]. *)
Definition checkpoint_of (s : State) (val_acc : pyfloat) (step : nat)
    : Checkpoint :=
  mkCheckpoint (net s) (param_groups s) val_acc step.

(** The instrumentation after [n] completed batches: the step counter and
    the number of optimizer updates were both [k] after the [k]-th. *)
Definition batch_log_upto (n : nat) : list (nat * nat) :=
  (fun k => (k, k)) <$> reverse (seq 1 n).

(** The outputs of the network, in inference mode, for the images of a
    batch. *)
Definition eval_outputs (s : State) (b : Batch Img) : list (list Q) :=
  head_forward (net s) false (model_forward (net s) false (b_imgs b)).

(** The samples of a validation stream in order, each as its output row
    and its label. *)
Definition validation_rows (s : State) (bs : list (Batch Img))
    : list (list Q * Label) :=
  concat ((fun b => zip (eval_outputs s b) (b_labels b)) <$> bs).








(** The loss [evaluate_attribute] computes for one batch. *)
Definition batch_loss (self : Train) (s : State) (b : Batch Img) : Q :=
  py_round (loss (config self) (eval_outputs s b) (b_labels b) (weights self)) 4.

(** The two counters of the instrumentation. *)
Definition counters (n : nat) (log : list (nat * nat)) (s : State) : Prop :=
  opt_steps s = n /\ batch_log s = log.

(** A method that leaves the two counters alone, also when it raises. *)
Definition frames {A} (m : M State A) : Prop :=
  forall n log,
    hoare (counters n log) m (fun _ => counters n log) (fun _ => counters n log).

(** Between two batches: as many optimizer updates as steps, and one entry
    of the log for each. *)
Definition in_step (l : Locals) (s : State) : Prop :=
  counters (step l) (batch_log_upto (step l)) s.

(** After an exception: the log is that of the completed batches, and the
    batch under way has made its update or not. *)
Definition interrupted (s : State) : Prop :=
  exists n, batch_log s = batch_log_upto n
            /\ (opt_steps s = n \/ opt_steps s = S n).

(** A method that never changes the part [proj] of the state, whether it
    returns or raises. *)
Definition keeps {X A} (proj : State -> X) (m : M State A) : Prop :=
  forall s, proj (m s).2 = proj s.

(** What training has learnt and written: weights, learning rates,
    scheduler, early-stop monitor, checkpoints and optimizer updates. *)
Definition learning_state (s : State)
    : Net * list Q * option Sched * Stopper * list Checkpoint * nat :=
  (net s, param_groups s, scheduler s, early_stop s, saved s, opt_steps s).

(** The newest checkpoint carries the best score and step on record; with
    no checkpoint yet, the record is the initial one. *)
Definition newest_is_best (self : Train) (best : pyfloat) (best_step : nat)
    (s : State) : Prop :=
  match saved s with
  | [] => best = initial_best self /\ best_step = 0
  | ck :: _ => ck_score ck = best /\ ck_step ck = best_step
  end.

(** Both modules are in training mode, or both in inference mode. *)
Definition modes (training : bool) (s : State) : Prop :=
  model_training s = training /\ head_training s = training.

End TrainerSpec.

(** ** A small instance, for examples *)

Module Demo.

(** Three validation batches for a two-class task: ten samples, six of
    them classified correctly. *)
Definition val_batches : list (Batch (list Q)) :=
  [mkBatch ([0.9; 0.1]%Q, ClassLabel 0)
     [([0.2; 0.8]%Q, ClassLabel 1); ([0.3; 0.7]%Q, ClassLabel 0);
      ([0.6; 0.4]%Q, ClassLabel 0)];
   mkBatch ([0.5; 0.5]%Q, ClassLabel 1)
     [([0.1; 0.9]%Q, ClassLabel 1); ([0.8; 0.2]%Q, ClassLabel 1);
      ([0.4; 0.6]%Q, ClassLabel 1)];
   mkBatch ([0.7; 0.3]%Q, ClassLabel 0) [([0.2; 0.8]%Q, ClassLabel 0)]].

(** Two validation batches for the age task: three samples of two outputs
    each, some of them half-way between two integers. *)
Definition age_batches : list (Batch (list Q)) :=
  [mkBatch ([0.6; 0.4]%Q, VecLabel [1; 1]%Q)
     [([2.5; 0.5]%Q, VecLabel [1; 0]%Q)];
   mkBatch ([1.5; 0.3]%Q, VecLabel [1; 0]%Q) []].

Definition train_batches : list (Batch (list Q)) :=
  [mkBatch ([0.5; 0.5]%Q, ClassLabel 0) [];
   mkBatch ([0.1; 0.9]%Q, ClassLabel 1) [];
   mkBatch ([0.7; 0.3]%Q, ClassLabel 1) []].

(** Images are their own logits; nothing is learnt.  The loader without
    flags is the training loader. *)
Definition collaborators : Collaborators := {|
  Img := list Q;
  Emb := list Q;
  Net := unit;
  Sched := unit;
  Stopper := unit;
  new_net := fun _ _ => tt;
  load_state := fun n _ _ => Ok n;
  CustomDataLoader := fun _ _ _ flags =>
    match flags with
    | None => mkLoader 3 (fun _ => train_batches) [0; 1; 1]
    | Some _ => mkLoader 3 (fun _ => val_batches) []
    end;
  model_forward := fun _ _ xs => xs;
  head_forward := fun _ _ es => es;
  model_forward_length := fun _ _ _ => eq_refl;
  head_forward_length := fun _ _ _ => eq_refl;
  sgd_step := fun n _ _ _ => n;
  new_scheduler := fun _ => tt;
  scheduler_step := fun s _ lrs => (s, lrs);
  new_early_stop := fun _ => tt;
  early_stop_call := fun s _ => s;
  early_stop_stop := fun _ => false;
  module_evaluate := None
|}.

(** The loss of a batch is its number of rows. *)
Definition cfg (attr mode : string) (plateau : bool) : Config :=
  mkConfig attr (ConfiguredHead "ArcFace") "train" "train.txt" "val" "val.txt"
    0.1%Q None None plateau mode 2 [1]
    (fun outputs _ _ => inject_Z (Z.of_nat (length outputs))) 2%positive 2.

Definition trainer (attr mode : string) (plateau : bool)
    (val : list (Batch (list Q))) : Train (C := collaborators) :=
  mkTrain (C := collaborators) (cfg attr mode plateau) GenderHead
    (mkLoader 3 (fun _ => train_batches) [0; 1; 1])
    (Some [2; 1]%Q) (Some (mkLoader (length val) (fun _ => val) []))
    None None None 1 1 1.

(** A trainer of the recognition task with its three validation sets. *)
Definition recognition_trainer : Train (C := collaborators) :=
  let pairs := Some ([[0.1; 0.2]; [0.1; 0.3]; [0.9; 0.2]]%Q, [true; false]) in
  mkTrain (C := collaborators) (cfg "recognition" "max" true)
    (ConfiguredHead "ArcFace")
    (mkLoader 3 (fun _ => train_batches) [0; 1; 1])
    None None pairs pairs pairs 1 1 1.

Definition state0 (sch : option unit) : State (C := collaborators) :=
  mkState (C := collaborators) tt true true [0.1; 0.1; 0.1]%Q sch tt [] [] 0 0 [].

(** A worker's exception as the consumer sees it. *)
Definition in_worker (e : exn) : exn :=
  match e with
  | OSError msg => OSError ("Caught OSError in DataLoader worker process 0. " ++ msg)
  | e => e
  end.

(** Pictures are described by a string; the image list has three rows of a
    name and a label. *)
Definition imaging : Predict.Imaging := {|
  Predict.Pic := string;
  Predict.read_csv := fun _ _ =>
    Ok [(Predict.CStr "a.jpg", [Predict.CInt 0]);
        (Predict.CStr "/abs/b.jpg", [Predict.CInt 1]);
        (Predict.CStr "c.jpg", [Predict.CInt 0])];
  Predict.Image_open := fun path => Ok path;
  Predict.convert := fun img mode => Ok (img ++ ":" ++ mode);
  Predict.Resize := fun _ img => Ok (img ++ ":112x112");
  Predict.ToTensor := fun img => Ok (img ++ ":tensor");
  Predict.Normalize := fun _ _ img => Ok (img ++ ":normalized");
  Predict.randperm := fun n => reverse (seq 0 n);
  Predict.reraise := in_worker
|}.

(** A trainer whose direction is neither "max" nor "min". *)
Definition undirected_trainer : Train (C := collaborators) :=
  trainer "gender" "accuracy" true val_batches.

(** A trainer that logs the training loss every 0 batches. *)
Definition stalled_trainer : Train (C := collaborators) :=
  mkTrain (C := collaborators) (cfg "gender" "max" true) GenderHead
    (mkLoader 3 (fun _ => train_batches) [0; 1; 1])
    (Some [2; 1]%Q) (Some (mkLoader 3 (fun _ => val_batches) []))
    None None None 0 1 1.

Definition locals_at (n : nat) : Locals := mkLocals 0 n (Fin 0) 0 NegInf 0.

(** The picture of the third row opens, but its data is cut short: PIL
    reads the data when the picture is converted. *)
Definition imaging_truncated : Predict.Imaging := {|
  Predict.Pic := string;
  Predict.read_csv := fun _ _ =>
    Ok [(Predict.CStr "a.jpg", [Predict.CInt 0]);
        (Predict.CStr "/abs/b.jpg", [Predict.CInt 1]);
        (Predict.CStr "c.jpg", [Predict.CInt 0]);
        (Predict.CStr "d.jpg", [Predict.CInt 1])];
  Predict.Image_open := fun path => Ok path;
  Predict.convert := fun img mode =>
    if String.eqb img "imgs/c.jpg" then Raise (OSError "image file is truncated")
    else Ok (img ++ ":" ++ mode);
  Predict.Resize := fun _ img => Ok (img ++ ":112x112");
  Predict.ToTensor := fun img => Ok (img ++ ":tensor");
  Predict.Normalize := fun _ _ img => Ok (img ++ ":normalized");
  Predict.randperm := fun n => reverse (seq 0 n);
  Predict.reraise := in_worker
|}.

(** An image list whose first line is [NA 0]: pandas reads the name as a
    missing value. *)
Definition imaging_reparsed : Predict.Imaging := {|
  Predict.Pic := string;
  Predict.read_csv := fun _ _ =>
    Ok [(Predict.CFloat NaN, [Predict.CInt 0]);
        (Predict.CStr "b.jpg", [Predict.CInt 1])];
  Predict.Image_open := fun path => Ok path;
  Predict.convert := fun img mode => Ok (img ++ ":" ++ mode);
  Predict.Resize := fun _ img => Ok (img ++ ":112x112");
  Predict.ToTensor := fun img => Ok (img ++ ":tensor");
  Predict.Normalize := fun _ _ img => Ok (img ++ ":normalized");
  Predict.randperm := fun n => reverse (seq 0 n);
  Predict.reraise := in_worker
|}.

End Demo.

(** ** Properties *)

(** *** Floats *)

Lemma Qltb_lt (x y : Q) : Qltb x y = true <-> (x < y)%Q.
Proof.
  unfold Qltb. rewrite negb_true_iff, <- not_true_iff_false, Qle_bool_iff.
  split; [apply Qnot_le_lt | apply Qlt_not_le].
Qed.

Lemma fgt_pylt (a b : pyfloat) : fgt a b = true <-> pylt b a.
Proof.
  destruct a, b; simpl; try (split; [discriminate | tauto]);
    try tauto; apply Qltb_lt.
Qed.

Lemma flt_pylt (a b : pyfloat) : flt a b = true <-> pylt a b.
Proof. apply fgt_pylt. Qed.

Lemma improves_improvement (mode : string) (val_acc best_acc : pyfloat) :
  improves mode val_acc best_acc = true <-> improvement mode val_acc best_acc.
Proof.
  unfold improves, improvement.
  rewrite orb_true_iff, !andb_true_iff, fgt_pylt, flt_pylt, !String.eqb_eq.
  tauto.
Qed.

Lemma improves_not_improvement (mode : string) (val_acc best_acc : pyfloat) :
  improves mode val_acc best_acc = false <-> ~ improvement mode val_acc best_acc.
Proof. rewrite <- improves_improvement. symmetry. apply not_true_iff_false. Qed.






(** *** Rules for [hoare] *)

Section HoareRules.
Context {S : Type}.
Implicit Types (P : S -> Prop) (R : exn -> S -> Prop).

Lemma hoare_ret {A} P (Q : A -> S -> Prop) R (a : A) :
  (forall s, P s -> Q a s) -> hoare P (ret a) Q R.
Proof. intros H s Hs. apply H, Hs. Qed.

Lemma hoare_raise {A} P (Q : A -> S -> Prop) R (e : exn) :
  (forall s, P s -> R e s) -> hoare P (raise e) Q R.
Proof. intros H s Hs. apply H, Hs. Qed.

Lemma hoare_lift {A} P (Q : A -> S -> Prop) R (r : result A) :
  (forall s, P s -> match r with Ok a => Q a s | Raise e => R e s end) ->
  hoare P (lift r) Q R.
Proof. intros H s Hs. unfold lift. specialize (H s Hs). destruct r; exact H. Qed.

Lemma hoare_get P (Q : S -> S -> Prop) R :
  (forall s, P s -> Q s s) -> hoare P get Q R.
Proof. intros H s Hs. apply H, Hs. Qed.

Lemma hoare_modify P (Q : unit -> S -> Prop) R (f : S -> S) :
  (forall s, P s -> Q tt (f s)) -> hoare P (modify f) Q R.
Proof. intros H s Hs. apply H, Hs. Qed.

Lemma hoare_bind {A B} P (Q1 : A -> S -> Prop) (Q : B -> S -> Prop) R
    (m : M S A) (k : A -> M S B) :
  hoare P m Q1 R -> (forall a, hoare (Q1 a) (k a) Q R) ->
  hoare P (bind m k) Q R.
Proof.
  intros Hm Hk s Hs. unfold bind. specialize (Hm s Hs).
  destruct (m s) as [[a | e] s']; [apply Hk, Hm | exact Hm].
Qed.

Lemma hoare_conseq {A} P P' (Q Q' : A -> S -> Prop) R R' (m : M S A) :
  hoare P' m Q' R' ->
  (forall s, P s -> P' s) -> (forall a s, Q' a s -> Q a s) ->
  (forall e s, R' e s -> R e s) ->
  hoare P m Q R.
Proof.
  intros Hm HP HQ HR s Hs. specialize (Hm s (HP s Hs)).
  destruct (m s) as [[a | e] s']; auto.
Qed.

Lemma hoare_for_each {A X} (I : A -> S -> Prop) R (body : A -> X -> M S A)
    (xs : list X) (acc : A) :
  (forall acc x, x ∈ xs -> hoare (I acc) (body acc x) I R) ->
  hoare (I acc) (for_each body xs acc) I R.
Proof.
  revert acc. induction xs as [| x xs IH]; intros acc Hbody.
  - apply hoare_ret. auto.
  - cbn [for_each]. eapply hoare_bind.
    + apply Hbody. left.
    + intros a. apply IH. intros acc' x' Hx'. apply Hbody. right. exact Hx'.
Qed.

End HoareRules.

Section TrainerProperties.
Context `{C : Collaborators}.

Local Open Scope py_scope.

(** *** Checkpoints *)

Lemma save_model_improved (self : Train) val_acc best step best_step st :
  improves (max_or_min (config self)) val_acc best = true ->
  save_model self val_acc best step best_step st
  = (Ok (val_acc, step), set_saved (cons (checkpoint_of st val_acc step)) st).
Proof. intros H. unfold save_model. rewrite H. reflexivity. Qed.

Lemma save_model_not_improved (self : Train) val_acc best step best_step st :
  improves (max_or_min (config self)) val_acc best = false ->
  save_model self val_acc best step best_step st = (Ok (best, best_step), st).
Proof. intros H. unfold save_model. rewrite H. reflexivity. Qed.

(** C1. [save_model] writes a checkpoint exactly when the score improves on
    the best one under the configured direction (strictly greater for
    ["max"], strictly less for ["min"]), and only then replaces the best
    score and step; for the scores 0.5, 0.6, 0.55 under ["max"] the first
    two evaluations write a checkpoint and the third does not. *)
Theorem save_model_checkpoints_improvements (self : Train) :
  (forall val_acc best step best_step st,
      (improvement (max_or_min (config self)) val_acc best ->
       save_model self val_acc best step best_step st
       = (Ok (val_acc, step),
          set_saved (cons (checkpoint_of st val_acc step)) st))
      /\ (~ improvement (max_or_min (config self)) val_acc best ->
          save_model self val_acc best step best_step st
          = (Ok (best, best_step), st)))
  /\ (max_or_min (config self) = "max" ->
      forall s1 s2 s3 st,
        let out :=
          checkpointing self
            [(Fin 0.5, s1); (Fin 0.6, s2); (Fin 0.55, s3)]
            (initial_best self, 0) st in
        out.1 = Ok (Fin 0.6, s2)
        /\ saved out.2
           = checkpoint_of st (Fin 0.6) s2 :: checkpoint_of st (Fin 0.5) s1
             :: saved st).
Proof.
  split.
  - intros val_acc best step best_step st. split; intros H.
    + apply save_model_improved, improves_improvement, H.
    + apply save_model_not_improved, improves_not_improvement, H.
  - intros Hmax s1 s2 s3 st.
    unfold checkpointing, initial_best, for_each, bind, save_model.
    rewrite Hmax. simpl. split; reflexivity.
Qed.

(** C9. The best score starts at minus infinity under ["max"] and at plus
    infinity under ["min"], so the first call of [save_model] writes a
    checkpoint whatever finite score it is given. *)
Theorem first_save_model_writes (self : Train) val_acc step st :
  is_finite val_acc = true ->
  max_or_min (config self) = "max" \/ max_or_min (config self) = "min" ->
  (max_or_min (config self) = "max" -> initial_best self = NegInf)
  /\ (max_or_min (config self) = "min" -> initial_best self = PosInf)
  /\ save_model self val_acc (best_acc (initial_locals self)) step
       (best_step (initial_locals self)) st
     = (Ok (val_acc, step),
        set_saved (cons (checkpoint_of st val_acc step)) st).
Proof.
  intros Hfin Hmode. destruct val_acc as [| q | |]; try discriminate.
  unfold initial_locals, initial_best. simpl.
  destruct Hmode as [H | H]; rewrite ?H; simpl;
    (split; [| split]); try reflexivity; try discriminate;
    apply save_model_improved; rewrite H; reflexivity.
Qed.

(** *** The learning rate at the end of an epoch *)

Lemma init_rest_scheduler (cfg : Config) (head_class : Head) self st :
  init_rest cfg head_class = Ok (self, st) ->
  config self = cfg
  /\ scheduler st
     = if lr_plateau cfg then Some (new_scheduler (max_or_min cfg)) else None.
Proof.
  unfold init_rest, rbind. intros H.
  repeat match type of H with
         | match ?x with _ => _ end = _ => destruct x; try discriminate
         end.
  injection H as <- <-. split; reflexivity.
Qed.

(** C2. At the end of an epoch listed for a fixed reduction, in a run
    without plateau reduction, every learning rate is divided by 10;
    otherwise the scheduler is stepped with the latest validation score when
    the object has one.  [__init__] creates the scheduler only when plateau
    reduction is on: in a run without it, an epoch that is not listed ends
    with [AttributeError] instead. *)
Theorem end_of_epoch_learning_rate (self : Train) epoch val_acc st :
  (epoch ∈ reduce_lr_epochs (config self) ->
   lr_plateau (config self) = false ->
   end_of_epoch self epoch val_acc st
   = (Ok tt, set_param_groups (map (fun lr => (lr / 10)%Q)) st))
  /\ (forall sch,
        ~ (epoch ∈ reduce_lr_epochs (config self)
           /\ lr_plateau (config self) = false) ->
        scheduler st = Some sch ->
        end_of_epoch self epoch val_acc st
        = (Ok tt,
           set_scheduler (Some (scheduler_step sch val_acc (param_groups st)).1)
             (set_param_groups
                (fun _ => (scheduler_step sch val_acc (param_groups st)).2) st)))
  /\ (epoch ∉ reduce_lr_epochs (config self) ->
      lr_plateau (config self) = false ->
      scheduler st = None ->
      end_of_epoch self epoch val_acc st = (Raise (AttributeError "scheduler"), st))
  /\ (forall head_class st0,
        init_rest (config self) head_class = Ok (self, st0) ->
        lr_plateau (config self) = false -> scheduler st0 = None).
Proof.
  unfold end_of_epoch. repeat split.
  - intros Hin Hp. rewrite bool_decide_eq_true_2, Hp by exact Hin. reflexivity.
  - intros sch Hnot Hs.
    destruct (bool_decide (epoch ∈ reduce_lr_epochs (config self))
              && negb (lr_plateau (config self))) eqn:E.
    + exfalso. apply Hnot. apply andb_true_iff in E as [E1 E2].
      apply bool_decide_eq_true_1 in E1. apply negb_true_iff in E2. auto.
    + unfold bind, get, getattr. rewrite Hs. unfold ret, modify.
      destruct (scheduler_step sch val_acc (param_groups st)). reflexivity.
  - intros Hnin Hp Hs.
    rewrite bool_decide_eq_false_2 by exact Hnin. simpl.
    unfold bind, get, getattr. rewrite Hs. reflexivity.
  - intros head_class st0 Hinit Hp.
    apply init_rest_scheduler in Hinit as [_ ->]. rewrite Hp. reflexivity.
Qed.

(** *** The recognition task *)

Lemma evaluate_recognition_result (self : Train) samples issame nrof_folds st :
  (evaluate_recognition self samples issame nrof_folds st).1
  = match module_evaluate with
    | None => Raise (NameError "evaluate")
    | Some ev =>
        Ok (np_mean
              (ev (embed_while (S (length samples)) (model_forward (net st) false)
                     (Pos.to_nat (batch_size (config self))) samples)
                  issame nrof_folds), 0)
    end.
Proof.
  unfold evaluate_recognition, bind, model_set_mode, modify, get. simpl.
  destruct module_evaluate; reflexivity.
Qed.

Lemma evaluate_recognition_task (self : Train) (step : nat) st :
  attribute (config self) = "recognition" ->
  (evaluate self step st).1
  = match agedb_30 self with
    | None => Raise (AttributeError "agedb_30")
    | Some _ =>
        Raise (NameError (match module_evaluate with
                          | None => "evaluate"
                          | Some _ => "accuracy"
                          end))
    end.
Proof.
  intros Hattr. unfold evaluate. rewrite Hattr. simpl.
  unfold bind at 1. destruct (agedb_30 self) as [d |]; simpl; [| reflexivity].
  unfold bind at 1.
  pose proof (evaluate_recognition_result self d.1 d.2 10 st) as Hr.
  destruct (evaluate_recognition self d.1 d.2 10 st) as [r st'].
  simpl in Hr. subst r. destruct module_evaluate; reflexivity.
Qed.

(** C3. For the recognition task [evaluate] never returns a score: whatever
    the state, it raises.  With the first validation set in place the
    exception is the [NameError] of [evaluate] at line 253 and, were that
    name bound, the [NameError] of [accuracy] at line 186. *)
Theorem evaluate_recognition_task_raises (self : Train) (step : nat) st :
  attribute (config self) = "recognition" ->
  is_ok (evaluate self step st).1 = false
  /\ (forall d, agedb_30 self = Some d ->
        (evaluate self step st).1
        = Raise (NameError (match module_evaluate with
                            | None => "evaluate"
                            | Some _ => "accuracy"
                            end))).
Proof.
  intros Hattr. rewrite (evaluate_recognition_task self step st Hattr).
  split.
  - destruct (agedb_30 self); reflexivity.
  - intros d ->. reflexivity.
Qed.

(** *** Construction *)

(** C4. [Train(config)] raises for every configuration, also for the four
    attributes of the dispatch table: line 33 reads the table, a local
    variable of [__init__], as the attribute [self.ATTR_HEAD], which no
    [Train] object has. *)
Theorem Train_init_always_raises (cfg : Config) :
  Train_init cfg = Raise (AttributeError "ATTR_HEAD").
Proof.
  unfold Train_init, init_head.
  replace (object_getattr _ "ATTR_HEAD")
    with (Raise (A := Attr) (AttributeError "ATTR_HEAD")); [reflexivity |].
  unfold object_getattr.
  rewrite !lookup_insert_ne, lookup_empty by discriminate.
  reflexivity.
Qed.

(** *** Validation of an attribute *)

Lemma for_each_val_loop (bs : list (Batch Img)) (acc : Accum) (st : State) :
  model_training st = false -> head_training st = false ->
  for_each val_loop_body bs acc st
  = (Ok (mkAccum (y_true acc ++ concat (b_labels <$> bs))
           (all_outputs acc ++ concat (eval_outputs st <$> bs))
           (match last bs with
            | Some b => Some (eval_outputs st b, b_labels b)
            | None => last_batch acc
            end)), st).
Proof.
  intros Hm Hh. revert acc. induction bs as [| b bs IH]; intros acc.
  - simpl. rewrite !app_nil_r. destruct acc; reflexivity.
  - cbn [for_each]. unfold bind at 1. unfold val_loop_body at 1.
    unfold forward, bind, get, ret. cbn beta iota. rewrite Hm, Hh.
    fold (eval_outputs st b).
    rewrite IH. cbn [y_true all_outputs last_batch fmap list_fmap concat].
    rewrite <- !app_assoc.
    destruct bs as [| b0 bs]; [reflexivity |].
    change (last (b :: b0 :: bs)) with (last (b0 :: bs)).
    destruct (last (b0 :: bs)) eqn:E; [reflexivity |].
    apply last_None in E. discriminate.
Qed.

Lemma evaluate_attribute_eq (self : Train) (ld : Loader Img) (st : State) :
  val_loader self = Some ld ->
  evaluate_attribute self st
  = let bs := ld_iter ld (iters st) in
    let st' := set_iters S (set_head_training false (set_model_training false st)) in
    (match last bs with
     | None => Raise (UnboundLocalError "outputs")
     | Some b =>
         rbind (attribute_score self (concat (b_labels <$> bs))
                  (concat (eval_outputs st <$> bs)))
           (fun accuracy => Ok (accuracy, batch_loss self st b))
     end, st').
Proof.
  intros Hld. unfold evaluate_attribute, model_set_mode, head_set_mode.
  rewrite Hld. unfold bind at 1. unfold modify at 1. unfold bind at 1.
  unfold modify at 1. unfold bind at 1. unfold iter_loader.
  unfold bind at 2. unfold get at 1. unfold bind at 2. unfold modify at 1.
  unfold ret at 1. unfold bind at 1.
  rewrite for_each_val_loop by reflexivity. simpl.
  destruct (last (ld_iter ld (iters st))) as [b |]; [| reflexivity].
  unfold bind, lift, ret, batch_loss.
  change (eval_outputs (set_iters S
            (set_head_training false (set_model_training false st))))
    with (eval_outputs st).
  destruct (attribute_score _ _ _); simpl; [| reflexivity].
  destruct (weights self); reflexivity.
Qed.

Lemma eval_outputs_length (st : State) (b : Batch Img) :
  length (eval_outputs st b) = length (b_labels b).
Proof.
  unfold eval_outputs, b_labels, b_imgs.
  rewrite head_forward_length, model_forward_length, !length_fmap.
  reflexivity.
Qed.

Lemma validation_rows_split (st : State) (bs : list (Batch Img)) :
  (validation_rows st bs).*1 = concat (eval_outputs st <$> bs)
  /\ (validation_rows st bs).*2 = concat (b_labels <$> bs).
Proof.
  unfold validation_rows. induction bs as [| b bs [IH1 IH2]]; [done |].
  cbn [fmap list_fmap concat]. rewrite !fmap_app.
  change (list_fmap ?A ?B ?f) with (fmap (M := list) f).
  rewrite IH1, IH2, fst_zip, snd_zip; [done | |];
    rewrite eval_outputs_length; done.
Qed.






Lemma tensorboard_val_result (self : Train) accuracy step loss dataset st :
  attribute (config self) <> "recognition" ->
  tensorboard_val self accuracy step loss dataset st
  = (Ok tt,
     set_board (fun l => ("val_loss", Fin loss, step)
                         :: (dataset ++ "val_acc", accuracy, step) :: l) st).
Proof.
  intros Hattr. apply String.eqb_neq in Hattr.
  unfold tensorboard_val. rewrite Hattr. reflexivity.
Qed.

(** C7. In an evaluation of a task other than recognition over one or more
    batches, the loss that is returned and logged is the rounded loss of the
    last batch alone, whatever the batches before it; the score is computed
    from the outputs and labels of all batches. *)
Theorem validation_loss_of_last_batch (self : Train) (ld : Loader Img)
    (st : State) (step : nat) (bs : list (Batch Img)) (b : Batch Img) :
  attribute (config self) <> "recognition" ->
  val_loader self = Some ld ->
  ld_iter ld (iters st) = (bs ++ [b])%list ->
  let rows := validation_rows st (bs ++ [b]) in
  let val_loss :=
    py_round (loss (config self) (eval_outputs st b) (b_labels b)
                (weights self)) 4 in
  (evaluate self step st).1
  = rbind (attribute_score self rows.*2 rows.*1)
      (fun val_acc => Ok (val_acc, val_loss))
  /\ (forall val_acc,
        attribute_score self rows.*2 rows.*1 = Ok val_acc ->
        board (evaluate self step st).2
        = ("val_loss", Fin val_loss, step) :: ("val_acc", val_acc, step)
          :: board st).
Proof.
  intros Hattr Hld Hbs rows val_loss.
  assert (Hev :
    evaluate self step st
    = bind (evaluate_attribute self) (fun r =>
        bind (tensorboard_val self r.1 step r.2 "") (fun _ => ret r)) st).
  { unfold evaluate. apply String.eqb_neq in Hattr. rewrite Hattr.
    cbn [negb]. unfold bind.
    destruct (evaluate_attribute self st) as [[[? ?] |] ?]; reflexivity. }
  rewrite Hev. unfold bind at 1 3.
  rewrite (evaluate_attribute_eq self ld st Hld), Hbs.
  cbn zeta. rewrite last_snoc.
  destruct (validation_rows_split st (bs ++ [b])) as [<- <-]. fold rows.
  fold (batch_loss self st b).
  destruct (attribute_score self rows.*2 rows.*1) as [acc | e];
    cbn [rbind]; [| split; [reflexivity | discriminate]].
  unfold bind. rewrite tensorboard_val_result by done.
  split; [reflexivity |]. intros ? [= <-]. reflexivity.
Qed.

(** *** The step counter *)

Lemma frames_ret {A} (a : A) : frames (ret a).
Proof. intros n log. apply hoare_ret. auto. Qed.

Lemma frames_raise {A} (e : exn) : frames (raise (A := A) e).
Proof. intros n log. apply hoare_raise. auto. Qed.

Lemma frames_unbound {A} (name : string) : frames (unbound (A := A) name).
Proof. apply frames_raise. Qed.

Lemma frames_lift {A} (r : result A) : frames (lift r).
Proof. intros n log. apply hoare_lift. intros s Hs. destruct r; exact Hs. Qed.

Lemma frames_get : frames get.
Proof. intros n log. apply hoare_get. auto. Qed.

Lemma frames_modify (f : State -> State) :
  (forall s, opt_steps (f s) = opt_steps s /\ batch_log (f s) = batch_log s) ->
  frames (modify f).
Proof.
  intros Hf n log. apply hoare_modify. intros s [H1 H2].
  destruct (Hf s) as [E1 E2]. split; congruence.
Qed.

Lemma frames_bind {A B} (m : M State A) (k : A -> M State B) :
  frames m -> (forall a, frames (k a)) -> frames (bind m k).
Proof.
  intros Hm Hk n log. eapply hoare_bind; [apply Hm |]. intros a. apply Hk.
Qed.

Lemma frames_for_each {A X} (body : A -> X -> M State A) (xs : list X) (acc : A) :
  (forall acc x, frames (body acc x)) -> frames (for_each body xs acc).
Proof.
  intros Hbody n log.
  apply (hoare_for_each (fun _ => counters n log)). intros. apply Hbody.
Qed.

Lemma frames_getattr {A} (name : string) (field : option A) :
  frames (getattr name field).
Proof. destruct field; [apply frames_ret | apply frames_raise]. Qed.

Ltac frames_step :=
  first
    [ apply frames_ret | apply frames_raise | apply frames_unbound
    | apply frames_lift | apply frames_get | apply frames_getattr
    | apply frames_modify; intros; split; reflexivity
    | apply frames_bind; [| intros ?]
    | apply frames_for_each; intros ? ?
    | match goal with
      | |- frames (if ?b then _ else _) => destruct b
      | |- frames (match ?x with _ => _ end) => destruct x
      | |- frames (let '(_, _) := ?x in _) => destruct x
      end ].

Ltac frames_tac := repeat frames_step.

Lemma frames_model_set_mode b : frames (model_set_mode b).
Proof. unfold model_set_mode. frames_tac. Qed.
Lemma frames_head_set_mode b : frames (head_set_mode b).
Proof. unfold head_set_mode. frames_tac. Qed.
Lemma frames_add_scalar tag v step : frames (add_scalar tag v step).
Proof. unfold add_scalar. frames_tac. Qed.
Lemma frames_iter_loader ld : frames (iter_loader ld).
Proof. unfold iter_loader. frames_tac. Qed.
Lemma frames_forward imgs : frames (forward imgs).
Proof. unfold forward. frames_tac. Qed.
Lemma frames_save_model self v b s bs : frames (save_model self v b s bs).
Proof. unfold save_model, save_state. frames_tac. Qed.
Lemma frames_reduce_lr : frames reduce_lr.
Proof. unfold reduce_lr. frames_tac. Qed.
Lemma frames_tensorboard_val self a s l d : frames (tensorboard_val self a s l d).
Proof. unfold tensorboard_val, add_scalar. frames_tac. Qed.
Lemma frames_evaluate_attribute self : frames (evaluate_attribute self).
Proof.
  unfold evaluate_attribute, model_set_mode, head_set_mode, iter_loader,
    val_loop_body, forward.
  frames_tac.
Qed.
Lemma frames_evaluate_recognition self samples issame n :
  frames (evaluate_recognition self samples issame n).
Proof. unfold evaluate_recognition, model_set_mode. frames_tac. Qed.
Lemma frames_evaluate self step : frames (evaluate self step).
Proof.
  unfold evaluate.
  repeat first
    [ apply frames_evaluate_attribute | apply frames_evaluate_recognition
    | apply frames_tensorboard_val | frames_step ].
Qed.
Lemma frames_end_of_epoch self epoch v : frames (end_of_epoch self epoch v).
Proof. unfold end_of_epoch, reduce_lr. frames_tac. Qed.

Lemma frames_hoare {A} (m : M State A) n log :
  frames m ->
  hoare (counters n log) m (fun _ => counters n log) (fun _ => counters n log).
Proof. intros H. apply H. Qed.

Lemma batch_log_upto_S (n : nat) :
  batch_log_upto (S n) = (S n, S n) :: batch_log_upto n.
Proof.
  unfold batch_log_upto. rewrite seq_S, reverse_app. reflexivity.
Qed.

Lemma forward_counters imgs n log :
  hoare (counters n log) (forward imgs) (fun _ => counters n log)
    (fun _ _ => False).
Proof. intros s Hs. exact Hs. Qed.

(** One training batch: one optimizer update, one more step, one entry. *)
Lemma train_batch_counts (self : Train) (l : Locals) (b : Batch Img) n log :
  hoare (counters n log) (train_batch self l b)
    (fun l' s' => step l' = S (step l)
                  /\ counters (S n) ((S (step l), S n) :: log) s')
    (fun _ => counters (S n) log).
Proof.
  unfold train_batch.
  eapply hoare_bind with (Q1 := fun _ => counters n log).
  { intros s Hs. exact Hs. }
  intros outputs.
  eapply hoare_bind with (Q1 := fun _ => counters (S n) log).
  { unfold optimizer_step. apply hoare_modify. intros s [H1 H2].
    split; [simpl; congruence | exact H2]. }
  intros ?.
  eapply hoare_bind; [apply frames_hoare, frames_lift |]. intros r1.
  eapply hoare_bind.
  { apply frames_hoare. destruct (Nat.eqb r1 0); [| apply frames_ret].
    apply frames_bind; [apply frames_add_scalar | intros; apply frames_ret]. }
  intros running.
  eapply hoare_bind; [apply frames_hoare, frames_lift |]. intros r2.
  eapply hoare_bind with
    (Q1 := fun l' s' => step l' = step l /\ counters (S n) log s').
  { destruct (Nat.eqb r2 0 && negb (Nat.eqb (step l) 0)).
    - eapply hoare_bind; [apply frames_hoare, frames_evaluate |]. intros v.
      eapply hoare_bind; [apply frames_hoare, frames_model_set_mode |].
      intros ?.
      eapply hoare_bind; [apply frames_hoare, frames_head_set_mode |].
      intros ?.
      eapply hoare_bind; [apply frames_hoare, frames_save_model |].
      intros best. apply hoare_ret. auto.
    - apply hoare_ret. auto. }
  intros l'. cbn beta.
  eapply hoare_bind with
    (Q1 := fun _ s' => step l' = step l
                       /\ counters (S n) ((S (step l), S n) :: log) s').
  { intros s [Hl [H1 H2]]. unfold modify. cbn beta iota.
    split; [exact Hl |]. split; [exact H1 |]. simpl. congruence. }
  intros ?. apply hoare_ret. intros s [Hl Hc]. split; [simpl; congruence | exact Hc].
Qed.

Lemma frames_in_step {A} (m : M State A) (l : Locals) :
  frames m -> hoare (in_step l) m (fun _ => in_step l) (fun _ => interrupted).
Proof.
  intros Hm. eapply hoare_conseq; [apply (Hm (step l) (batch_log_upto (step l))) | | |];
    cbn beta; auto.
  intros _ s [H1 H2]. exists (step l). auto.
Qed.

Lemma train_batch_in_step (self : Train) (l : Locals) (b : Batch Img) :
  hoare (in_step l) (train_batch self l b) in_step (fun _ => interrupted).
Proof.
  eapply hoare_conseq; [apply train_batch_counts | | |]; cbn beta.
  - intros s Hs. exact Hs.
  - intros l' s [Hl Hc]. unfold in_step. rewrite Hl, batch_log_upto_S. exact Hc.
  - intros _ s [H1 H2]. exists (step l). auto.
Qed.

Lemma run_epochs_in_step (self : Train) (remaining : list nat) (l : Locals) :
  hoare (in_step l) (run_epochs self remaining l) in_step (fun _ => interrupted).
Proof.
  revert l. induction remaining as [| epoch later IH]; intros l.
  - apply hoare_ret. auto.
  - cbn [run_epochs].
    eapply hoare_bind; [apply frames_in_step, frames_iter_loader |].
    intros batches.
    eapply hoare_bind.
    { apply (hoare_for_each in_step). intros. apply train_batch_in_step. }
    intros l'.
    eapply hoare_bind; [apply frames_in_step, frames_end_of_epoch |]. intros ?.
    eapply hoare_bind.
    { apply frames_in_step, frames_modify. intros; split; reflexivity. }
    intros ?.
    eapply hoare_bind with (Q1 := fun _ => in_step l').
    { apply hoare_get. auto. }
    intros s. destruct (early_stop_stop (early_stop s)).
    + apply hoare_ret. auto.
    + apply IH.
Qed.

Lemma run_counts (self : Train) :
  hoare (counters 0 []) (run self)
    (fun _ s => exists n, counters n (batch_log_upto n) s)
    (fun _ => interrupted).
Proof.
  unfold run.
  eapply hoare_bind with (Q1 := fun _ => in_step (initial_locals self)).
  { apply hoare_modify. intros s [H1 H2]. split; assumption. }
  intros ?.
  eapply hoare_bind; [apply frames_in_step, frames_head_set_mode |]. intros ?.
  eapply hoare_bind; [apply run_epochs_in_step |]. intros l.
  eapply hoare_bind; [apply frames_in_step, frames_evaluate |]. intros v.
  eapply hoare_bind; [apply frames_in_step, frames_save_model |]. intros best.
  apply hoare_ret. intros s Hs. exists (step l). exact Hs.
Qed.

(** C8. The step counter grows by exactly one with every training batch,
    as does the number of optimizer updates; in a run, after the [k]-th
    batch both are [k], across epochs, up to the end of the run or the
    exception that ends it. *)
Theorem step_counts_optimizer_updates (self : Train) :
  (forall l b st,
      match train_batch self l b st with
      | (Ok l', st') =>
          step l' = S (step l)
          /\ opt_steps st' = S (opt_steps st)
          /\ batch_log st' = (step l', opt_steps st') :: batch_log st
      | (Raise _, st') => batch_log st' = batch_log st
      end)
  /\ (forall st,
        opt_steps st = 0 -> batch_log st = [] ->
        exists n,
          batch_log (run self st).2 = batch_log_upto n
          /\ (opt_steps (run self st).2 = n \/ opt_steps (run self st).2 = S n)
          /\ (is_ok (run self st).1 = true -> opt_steps (run self st).2 = n)).
Proof.
  split.
  - intros l b st.
    pose proof (train_batch_counts self l b (opt_steps st) (batch_log st) st
                  (conj eq_refl eq_refl)) as H.
    destruct (train_batch self l b st) as [[l' | e] st'].
    + destruct H as [Hl [H1 H2]]. rewrite Hl, H1. auto.
    + apply H.
  - intros st H1 H2.
    pose proof (run_counts self st (conj H1 H2)) as H.
    destruct (run self st) as [[r | e] st']; cbn [fst snd is_ok].
    + destruct H as [n [Hn1 Hn2]]. exists n. auto.
    + destruct H as [n [Hn1 Hn2]]. exists n. split; [done |].
      split; [done | discriminate].
Qed.

End TrainerProperties.

(** *** The prediction loader *)

Module PredictFacts.
Import Predict.

Section Loader.
Context `{I : Imaging}.

Lemma batch_sampler_keeps_all (batch_size : nat) (batch indices : list nat) :
  length batch < batch_size ->
  let out := batch_sampler batch_size false batch indices in
  concat out = (batch ++ indices)%list
  /\ Forall (fun b => 0 < length b <= batch_size) out
  /\ full_but_last batch_size out.
Proof.
  revert batch. induction indices as [| idx rest IH]; intros batch Hlen.
  - cbn [batch_sampler negb]. rewrite andb_true_r, app_nil_r.
    destruct (Nat.ltb_spec 0 (length batch)) as [Hpos | Hz].
    + cbn [concat]. rewrite app_nil_r. repeat split.
      * constructor; [lia | constructor].
      * intros [| k] b Hk Hlast; simpl in *; lia.
    + destruct batch; [| simpl in Hz; lia]. repeat split; [constructor |].
      intros k b Hk. rewrite lookup_nil in Hk. discriminate.
  - cbn [batch_sampler].
    destruct (Nat.eqb_spec (length (batch ++ [idx])) batch_size) as [E | E].
    + destruct (IH [] ltac:(simpl; lia)) as (H1 & H2 & H3).
      cbn zeta in *. cbn [concat]. rewrite H1, <- app_assoc.
      repeat split.
      * constructor; [lia | exact H2].
      * intros [| k] b Hk Hlast; cbn in Hk.
        -- injection Hk as <-. exact E.
        -- apply (H3 k b Hk). cbn [length] in Hlast. lia.
    + rewrite length_app in E. cbn [length] in E.
      destruct (IH (batch ++ [idx])%list) as (H1 & H2 & H3).
      { rewrite length_app. simpl. lia. }
      cbn zeta in *. rewrite H1, <- app_assoc. auto.
Qed.

Lemma fetch_all (d : ImageList) (idxs : list nat) (xs : list Pic) :
  Forall2 (fun i x => ImageList_getitem d i = Ok x) idxs xs ->
  fetch d idxs = Ok xs.
Proof.
  induction 1 as [| i x idxs xs Hi _ IH]; [reflexivity |].
  cbn [fetch]. rewrite Hi, IH. reflexivity.
Qed.

Lemma Forall2_concat_inv {A B} (R : A -> B -> Prop) (ls : list (list A))
    (ys : list B) :
  Forall2 R (concat ls) ys ->
  exists parts, ys = concat parts /\ Forall2 (Forall2 R) ls parts.
Proof.
  revert ys. induction ls as [| l ls IH]; intros ys H.
  - apply Forall2_nil_inv_l in H as ->. exists []. split; constructor.
  - cbn [concat] in H. apply Forall2_app_inv_l in H as (y1 & y2 & H1 & H2 & ->).
    destruct (IH y2 H2) as (parts & -> & Hp).
    exists (y1 :: parts). split; [reflexivity | constructor; assumption].
Qed.

Lemma fetch_batches (d : ImageList) (workers : Z) (batches : list (list nat))
    (parts : list (list Pic)) :
  Forall2 (Forall2 (fun i x => ImageList_getitem d i = Ok x)) batches parts ->
  (fun batch => deliver workers (fetch d batch)) <$> batches = Ok <$> parts.
Proof.
  induction 1 as [| b p batches parts Hb _ IH]; [reflexivity |].
  cbn [fmap list_fmap].
  change (list_fmap ?A ?B ?f) with (fmap (M := list) f).
  rewrite (fetch_all d b p Hb), IH. reflexivity.
Qed.

(** Names that are strings are all joined to the source directory. *)
Lemma join_all_names (source : string) (names : list string) :
  join_all source (CStr <$> names) = Ok (posix_join source <$> names).
Proof.
  induction names as [| name names IH]; [reflexivity |].
  cbn [fmap list_fmap join_all path_join rbind].
  change (list_fmap ?A ?B ?f) with (fmap (M := list) f).
  rewrite IH. reflexivity.
Qed.

(** The first name that is no string stops the construction. *)
Lemma join_all_not_a_name (source : string) (image_names : list Cell) :
  Exists (fun c => is_str c = false) image_names ->
  exists msg, join_all source image_names = Raise (TypeError msg).
Proof.
  induction image_names as [| c rest IH]; intros H.
  - apply Exists_nil in H. destruct H.
  - cbn [join_all].
    destruct c as [s | n | x | b]; cbn [path_join rbind];
      try (eexists; reflexivity).
    apply Exists_cons in H as [H | H]; [discriminate H |].
    destruct (IH H) as (msg & ->). exists msg. reflexivity.
Qed.

Lemma Compose_transforms (x : Pic) :
  Compose [Resize (112, 112); ToTensor;
           Normalize [0.5; 0.5; 0.5]%Q [0.5; 0.5; 0.5]%Q] x
  = rbind (Resize (112, 112) x) (fun img =>
    rbind (ToTensor img) (fun img =>
    Normalize [0.5; 0.5; 0.5]%Q [0.5; 0.5; 0.5]%Q img)).
Proof.
  unfold Compose. cbn [foldl rbind].
  destruct (Resize (112, 112) x) as [y |]; [| reflexivity].
  cbn [rbind]. destruct (ToTensor y); reflexivity.
Qed.

(** What the constructor builds from a list of names that are strings. *)
Lemma prediction_loader_built (batch_size workers : Z)
    (source image_list : string) (rows : list (Cell * list Cell))
    (names : list string) :
  read_csv image_list " " = Ok rows ->
  rows.*1 = CStr <$> names ->
  (0 < batch_size)%Z ->
  (0 <= workers)%Z ->
  PredictionDataLoader_init batch_size workers source image_list
  = Ok (mkDataLoader
          (mkImageList (posix_join source <$> names)
             [Resize (112, 112); ToTensor;
              Normalize [0.5; 0.5; 0.5]%Q [0.5; 0.5; 0.5]%Q])
          batch_size false workers false).
Proof.
  intros Hcsv Hnames Hpos Hw.
  unfold PredictionDataLoader_init, ImageList_init. rewrite Hcsv. cbn [rbind].
  rewrite Hnames, join_all_names. cbn [rbind]. unfold DataLoader_init.
  rewrite (proj2 (Z.ltb_ge _ _)) by lia.
  rewrite (proj2 (Z.leb_gt _ _)) by lia. reflexivity.
Qed.

Lemma getitem_item (source : string) (names : list string)
    (ts := [Resize (112, 112); ToTensor;
            Normalize [0.5; 0.5; 0.5]%Q [0.5; 0.5; 0.5]%Q])
    (i : nat) (name : string) :
  names !! i = Some name ->
  ImageList_getitem (mkImageList (posix_join source <$> names) ts) i
  = item source name.
Proof.
  intros Hname. unfold ImageList_getitem, item. cbn [samples transform].
  rewrite list_lookup_fmap, Hname. cbn [fmap option_fmap option_map].
  destruct (Image_open (posix_join source name)) as [img |]; [| reflexivity].
  cbn [rbind]. destruct (convert img "RGB") as [rgb |]; [| reflexivity].
  cbn [rbind]. apply Compose_transforms.
Qed.

(** C10, amended. For an image list whose names pandas reads as strings, a
    batch size of at least 1 and a number of workers that is not negative:
    the image list has one item for each row of the file; item [i] is the
    picture named in row [i], converted to RGB, resized to 112 x 112, made
    a tensor and normalised with mean and deviation 0.5 on each channel,
    without a label; the loader takes the indices in order, does not
    shuffle, keeps the last and possibly shorter batch, and so yields every
    item once, in the order of the file. *)
Theorem prediction_loader_in_file_order (batch_size workers : Z)
    (source image_list : string) (rows : list (Cell * list Cell))
    (names : list string) :
  read_csv image_list " " = Ok rows ->
  rows.*1 = CStr <$> names ->
  (0 < batch_size)%Z ->
  (0 <= workers)%Z ->
  exists dl,
    PredictionDataLoader_init batch_size workers source image_list = Ok dl
    /\ shuffle dl = false /\ drop_last dl = false
    /\ ImageList_len (dataset dl) = length rows
    /\ (forall i name, names !! i = Some name ->
          ImageList_getitem (dataset dl) i = item source name)
    /\ concat (batch_indices dl) = seq 0 (length rows)
    /\ Forall (fun b => 0 < length b <= Z.to_nat batch_size) (batch_indices dl)
    /\ full_but_last (Z.to_nat batch_size) (batch_indices dl)
    /\ (forall items,
          Forall2 (fun name x => item source name = Ok x) names items ->
          exists batches,
            DataLoader_iter dl = Ok <$> batches /\ concat batches = items).
Proof.
  intros Hcsv Hnames Hpos Hw.
  eexists. split; [exact (prediction_loader_built _ _ _ _ _ _ Hcsv Hnames Hpos Hw) |].
  set (d := mkImageList _ _).
  assert (Hrows : length rows = length names).
  { rewrite <- (length_fmap fst rows), Hnames. apply length_fmap. }
  assert (Hlen : ImageList_len d = length rows).
  { unfold ImageList_len, d. cbn [samples]. rewrite Hrows. apply length_fmap. }
  assert (Hitem : forall i name, names !! i = Some name ->
                    ImageList_getitem d i = item source name).
  { intros i name. apply getitem_item. }
  destruct (batch_sampler_keeps_all (Z.to_nat batch_size) []
              (seq 0 (length rows)))
    as (H1 & H2 & H3); [simpl; lia |].
  cbn zeta in H1, H2, H3.
  assert (Hidx : batch_indices (mkDataLoader d batch_size false workers false)
                 = batch_sampler (Z.to_nat batch_size) false []
                     (seq 0 (length rows))).
  { unfold batch_indices, sampler.
    cbn [dataset dl_batch_size shuffle drop_last]. rewrite Hlen. reflexivity. }
  rewrite Hidx.
  repeat (split; [done |]).
  intros items Hitems.
  assert (Hall : Forall2 (fun i x => ImageList_getitem d i = Ok x)
                   (concat (batch_sampler (Z.to_nat batch_size) false []
                              (seq 0 (length rows))))
                   items).
  { rewrite H1. cbn [app].
    apply Forall2_same_length_lookup. split.
    - rewrite length_seq, Hrows. apply (Forall2_length _ _ _ Hitems).
    - intros i j x Hj Hx. apply lookup_seq in Hj as [-> Hi].
      change (0 + i) with i.
      destruct (names !! i) as [name |] eqn:Hname.
      + rewrite (Hitem i name Hname).
        apply (Forall2_lookup_lr _ _ _ _ _ _ Hitems Hname Hx).
      + apply lookup_ge_None in Hname. lia. }
  destruct (Forall2_concat_inv _ _ _ Hall) as (parts & -> & Hparts).
  exists parts. split; [| reflexivity].
  unfold DataLoader_iter. rewrite Hidx. cbn [dataset num_workers].
  apply fetch_batches, Hparts.
Qed.

End Loader.
End PredictFacts.

(** ** Further properties of the trainer *)

Lemma Qltb_false (x y : Q) : Qltb x y = false <-> (y <= x)%Q.
Proof.
  unfold Qltb. rewrite negb_false_iff. apply Qle_bool_iff.
Qed.

Lemma fgt_trans (a b c : pyfloat) :
  fgt a b = true -> fgt b c = true -> fgt a c = true.
Proof.
  destruct a, b, c; cbn; try discriminate; try reflexivity.
  rewrite !Qltb_lt. intros H1 H2. lra.
Qed.

Lemma fgt_irrefl (a : pyfloat) : fgt a a = false.
Proof. destruct a; cbn; try reflexivity. apply Qltb_false. lra. Qed.

Lemma fgt_neg_trans (a b c : pyfloat) :
  b <> NaN -> fgt a b = false -> fgt b c = false -> fgt a c = false.
Proof.
  intros Hb. destruct a, b, c; cbn; try discriminate; try reflexivity;
    try congruence.
  rewrite !Qltb_false. intros H1 H2. lra.
Qed.

Lemma fgt_not_nan (a b : pyfloat) : fgt a b = true -> a <> NaN.
Proof. destruct a; cbn; discriminate. Qed.

Lemma flt_not_nan (a b : pyfloat) : flt a b = true -> a <> NaN.
Proof. destruct a, b; cbn; discriminate. Qed.

Lemma improves_cases (mode : string) (a b : pyfloat) :
  improves mode a b
  = if String.eqb mode "max" then fgt a b
    else if String.eqb mode "min" then fgt b a else false.
Proof.
  unfold improves, flt.
  destruct (String.eqb_spec mode "max") as [-> | _]; cbn.
  - apply orb_false_r.
  - destruct (String.eqb mode "min"); reflexivity.
Qed.

Lemma improves_trans mode a b c :
  improves mode a b = true -> improves mode b c = true ->
  improves mode a c = true.
Proof.
  rewrite !improves_cases.
  destruct (String.eqb mode "max"); [apply fgt_trans |].
  destruct (String.eqb mode "min"); [| discriminate].
  intros H1 H2. exact (fgt_trans _ _ _ H2 H1).
Qed.

Lemma improves_irrefl mode a : improves mode a a = false.
Proof.
  rewrite improves_cases.
  destruct (String.eqb mode "max"); [apply fgt_irrefl |].
  destruct (String.eqb mode "min"); [apply fgt_irrefl | reflexivity].
Qed.

Lemma improves_neg_trans mode a b c :
  b <> NaN -> improves mode a b = false -> improves mode b c = false ->
  improves mode a c = false.
Proof.
  intros Hb. rewrite !improves_cases.
  destruct (String.eqb mode "max"); [apply fgt_neg_trans, Hb |].
  destruct (String.eqb mode "min"); [| reflexivity].
  intros H1 H2. exact (fgt_neg_trans _ _ _ Hb H2 H1).
Qed.

Lemma improves_not_nan mode a b : improves mode a b = true -> a <> NaN.
Proof.
  rewrite improves_cases.
  destruct (String.eqb mode "max"); [apply fgt_not_nan |].
  destruct (String.eqb mode "min"); [| discriminate].
  destruct a, b; cbn; discriminate.
Qed.






Section TrainerMore.
Context `{C : Collaborators}.

Local Open Scope py_scope.

Lemma keeps_ret {X A} (proj : State -> X) (a : A) : keeps proj (ret a).
Proof. intros s. reflexivity. Qed.

Lemma keeps_raise {X A} (proj : State -> X) (e : exn) :
  keeps proj (raise (A := A) e).
Proof. intros s. reflexivity. Qed.

Lemma keeps_lift {X A} (proj : State -> X) (r : result A) : keeps proj (lift r).
Proof. intros s. reflexivity. Qed.

Lemma keeps_get {X} (proj : State -> X) : keeps proj get.
Proof. intros s. reflexivity. Qed.

Lemma keeps_modify {X} (proj : State -> X) (f : State -> State) :
  (forall s, proj (f s) = proj s) -> keeps proj (modify f).
Proof. intros Hf s. apply Hf. Qed.

Lemma keeps_bind {X A B} (proj : State -> X) (m : M State A)
    (k : A -> M State B) :
  keeps proj m -> (forall a, keeps proj (k a)) -> keeps proj (bind m k).
Proof.
  intros Hm Hk s. unfold bind. specialize (Hm s).
  destruct (m s) as [[a | e] s']; cbn [snd] in *; [| exact Hm].
  rewrite Hk. exact Hm.
Qed.

Lemma keeps_for_each {X A Y} (proj : State -> X) (body : A -> Y -> M State A)
    (ys : list Y) (acc : A) :
  (forall acc y, keeps proj (body acc y)) -> keeps proj (for_each body ys acc).
Proof.
  intros Hbody. revert acc. induction ys as [| y ys IH]; intros acc.
  - apply keeps_ret.
  - cbn [for_each]. apply keeps_bind; [apply Hbody | apply IH].
Qed.

Lemma keeps_getattr {X A} (proj : State -> X) (name : string) (field : option A) :
  keeps proj (getattr name field).
Proof. destruct field; [apply keeps_ret | apply keeps_raise]. Qed.

Ltac keeps_step :=
  first
    [ apply keeps_ret | apply keeps_raise | apply keeps_lift | apply keeps_get
    | apply keeps_getattr
    | apply keeps_modify; intros; reflexivity
    | apply keeps_bind; [| intros ?]
    | apply keeps_for_each; intros ? ?
    | match goal with
      | |- keeps _ (if ?b then _ else _) => destruct b
      | |- keeps _ (match ?x with _ => _ end) => destruct x
      end ].

Ltac keeps_tac := repeat keeps_step.

Lemma evaluate_keeps_learning_state (self : Train) (step : nat) :
  keeps learning_state (evaluate self step).
Proof.
  unfold evaluate, evaluate_attribute, evaluate_recognition, tensorboard_val,
    model_set_mode, head_set_mode, iter_loader, val_loop_body, forward,
    add_scalar, unbound.
  keeps_tac.
Qed.

Lemma save_model_keeps_but_saved (self : Train) v b s bs :
  keeps (fun st => (net st, param_groups st, scheduler st, early_stop st,
                    opt_steps st, model_training st, head_training st))
    (save_model self v b s bs).
Proof. unfold save_model, save_state. keeps_tac. Qed.

Lemma train_batch_keeps_learning_rates (self : Train) (l : Locals) (b : Batch Img) :
  keeps (fun st => (param_groups st, scheduler st, early_stop st))
    (train_batch self l b).
Proof.
  unfold train_batch, optimizer_step, evaluate, evaluate_attribute,
    evaluate_recognition, tensorboard_val, save_model, save_state,
    model_set_mode, head_set_mode, iter_loader, val_loop_body, forward,
    add_scalar, unbound.
  keeps_tac.
Qed.

(** X1. An evaluation, whether it returns or raises, changes neither the
    weights, the learning rates, the scheduler, the early-stop monitor, the
    checkpoints nor the number of optimizer updates. *)
Theorem evaluate_changes_no_learning_state (self : Train) (step : nat) st :
  learning_state (evaluate self step st).2 = learning_state st
  /\ learning_state (evaluate_attribute self st).2 = learning_state st.
Proof.
  split; [apply evaluate_keeps_learning_state |].
  revert st. change (keeps learning_state (evaluate_attribute self)).
  unfold evaluate_attribute, model_set_mode, head_set_mode, iter_loader,
    val_loop_body, forward.
  keeps_tac.
Qed.

(** X2. A training batch, with or without an evaluation, leaves the
    learning rates, the scheduler and the early-stop monitor as they are:
    they move only at the end of an epoch. *)
Theorem train_batch_leaves_schedule (self : Train) (l : Locals) (b : Batch Img) st :
  param_groups (train_batch self l b st).2 = param_groups st
  /\ scheduler (train_batch self l b st).2 = scheduler st
  /\ early_stop (train_batch self l b st).2 = early_stop st.
Proof.
  pose proof (train_batch_keeps_learning_rates self l b st) as H.
  cbv beta in H. injection H as H1 H2 H3. auto.
Qed.

Lemma improves_other_mode (mode : string) v b :
  mode <> "max" -> mode <> "min" -> improves mode v b = false.
Proof.
  intros H1 H2. unfold improves.
  apply String.eqb_neq in H1, H2. rewrite H1, H2. reflexivity.
Qed.

Lemma run_epochs_keeps_saved (self : Train) remaining l :
  max_or_min (config self) <> "max" -> max_or_min (config self) <> "min" ->
  keeps saved (run_epochs self remaining l).
Proof.
  intros H1 H2. revert l. induction remaining as [| epoch later IH]; intros l.
  - apply keeps_ret.
  - cbn [run_epochs].
    unfold train_batch, optimizer_step, evaluate, evaluate_attribute,
      evaluate_recognition, tensorboard_val, save_model, save_state,
      model_set_mode, head_set_mode, iter_loader, val_loop_body, forward,
      add_scalar, unbound, end_of_epoch, reduce_lr.
    repeat first [ apply IH | rewrite improves_other_mode by assumption | keeps_step ].
Qed.

(** X3. With a direction that is neither ["max"] nor ["min"] the best
    score starts at plus infinity, [save_model] never saves, and a whole
    run writes no checkpoint. *)
Theorem no_checkpoint_without_direction (self : Train) st :
  max_or_min (config self) <> "max" -> max_or_min (config self) <> "min" ->
  initial_best self = PosInf
  /\ saved (run self st).2 = saved st
  /\ (forall v b s bs st', save_model self v b s bs st' = (Ok (b, bs), st')).
Proof.
  intros H1 H2. split; [| split].
  - unfold initial_best. apply String.eqb_neq in H1. rewrite H1. reflexivity.
  - revert st. change (keeps saved (run self)). unfold run.
    unfold evaluate, evaluate_attribute,
      evaluate_recognition, tensorboard_val, save_model, save_state,
      model_set_mode, head_set_mode, iter_loader, val_loop_body, forward,
      add_scalar, unbound.
    repeat first [ apply run_epochs_keeps_saved; assumption
                 | rewrite improves_other_mode by assumption | keeps_step ].
  - intros. apply save_model_not_improved, improves_other_mode; assumption.
Qed.

Lemma keeps_hoare {X A} (proj : State -> X) (m : M State A) (x : X) :
  keeps proj m ->
  hoare (fun s => proj s = x) m (fun _ s => proj s = x) (fun _ s => proj s = x).
Proof.
  intros Hm s Hs. specialize (Hm s).
  destruct (m s) as [[a | e] s']; cbn [snd] in Hm; congruence.
Qed.

Lemma evaluate_recognition_hoare (self : Train) (step : nat) (P : State -> Prop) :
  attribute (config self) = "recognition" ->
  hoare P (evaluate self step) (fun _ _ => False) (fun _ _ => True).
Proof.
  intros Hattr s _.
  pose proof (evaluate_recognition_task self step s Hattr) as H.
  destruct (evaluate self step s) as [[r | e] s']; cbn [fst] in H; [| exact I].
  destruct (agedb_30 self); discriminate H.
Qed.

(** X4. For the recognition task [run] never completes: the evaluation
    after the epochs is unconditional and raises. *)
Theorem run_recognition_raises (self : Train) st :
  attribute (config self) = "recognition" -> is_ok (run self st).1 = false.
Proof.
  intros Hattr.
  assert (H : hoare (fun _ => True) (run self) (fun _ _ => False)
                (fun _ _ => True)).
  { unfold run.
    eapply hoare_bind with (Q1 := fun _ _ => True); [intros s _; exact I |].
    intros ?.
    eapply hoare_bind with (Q1 := fun _ _ => True); [intros s _; exact I |].
    intros ?.
    eapply hoare_bind with (Q1 := fun _ _ => True).
    { intros s _. destruct (run_epochs _ _ _ s) as [[? | ?] ?]; exact I. }
    intros l.
    eapply hoare_bind; [apply evaluate_recognition_hoare, Hattr |].
    intros v s []. }
  specialize (H st I). destruct (run self st) as [[r | e] s']; [destruct H | reflexivity].
Qed.

Lemma evaluate_attribute_modes (self : Train) st :
  modes false (evaluate_attribute self st).2.
Proof.
  unfold evaluate_attribute. unfold bind at 1 2.
  unfold model_set_mode at 1, head_set_mode at 1, modify. cbn beta iota.
  set (s2 := set_head_training false (set_model_training false st)).
  set (rest := match val_loader self with Some _ => _ | None => _ end).
  assert (Hk : keeps (fun s => (model_training s, head_training s)) rest).
  { unfold rest, iter_loader, val_loop_body, forward. keeps_tac. }
  specialize (Hk s2). cbv beta in Hk. injection Hk as H1 H2.
  split; [rewrite H1 | rewrite H2]; reflexivity.
Qed.

Lemma evaluate_modes (self : Train) (step : nat) :
  hoare (fun _ => True) (evaluate self step) (fun _ => modes false)
    (fun _ _ => True).
Proof.
  destruct (String.eqb (attribute (config self)) "recognition") eqn:E.
  - apply String.eqb_eq in E.
    eapply hoare_conseq; [apply (evaluate_recognition_hoare self step (fun _ => True) E) | | |];
      cbn beta; tauto.
  - unfold evaluate. rewrite E. cbn [negb].
    eapply hoare_bind with (Q1 := fun _ => modes false) (R := fun _ _ => True).
    { intros s _. pose proof (evaluate_attribute_modes self s) as H.
      destruct (evaluate_attribute self s) as [[r | e] s']; [exact H | exact I]. }
    intros [val_acc val_loss].
    eapply hoare_bind with (Q1 := fun _ => modes false).
    { intros s [H1 H2].
      assert (Hk : keeps (fun s => (model_training s, head_training s))
                     (tensorboard_val self val_acc step val_loss "")).
      { unfold tensorboard_val, add_scalar. keeps_tac. }
      specialize (Hk s). cbv beta in Hk. injection Hk as K1 K2.
      destruct (tensorboard_val self val_acc step val_loss "" s) as [[? | ?] s'];
        cbn [snd] in *; [split; congruence | exact I]. }
    intros ?. apply hoare_ret. auto.
Qed.

Lemma train_batch_modes (self : Train) (l : Locals) (b : Batch Img) :
  hoare (modes true) (train_batch self l b) (fun _ => modes true)
    (fun _ _ => True).
Proof.
  unfold train_batch.
  eapply hoare_bind with (Q1 := fun _ => modes true); [intros s Hs; exact Hs |].
  intros outputs.
  eapply hoare_bind with (Q1 := fun _ => modes true); [intros s Hs; exact Hs |].
  intros ?.
  eapply hoare_bind with (Q1 := fun _ => modes true).
  { apply hoare_lift. intros s Hs. destruct (py_mod _ _); [exact Hs | exact I]. }
  intros r1.
  eapply hoare_bind with (Q1 := fun _ => modes true).
  { destruct (Nat.eqb r1 0); [| apply hoare_ret; auto]. intros s Hs. exact Hs. }
  intros running.
  eapply hoare_bind with (Q1 := fun _ => modes true).
  { apply hoare_lift. intros s Hs. destruct (py_mod _ _); [exact Hs | exact I]. }
  intros r2.
  eapply hoare_bind with (Q1 := fun _ => modes true).
  { destruct (Nat.eqb r2 0 && negb (Nat.eqb (step l) 0)); [| apply hoare_ret; auto].
    eapply hoare_bind with (Q1 := fun _ _ => True).
    { intros s _. destruct (evaluate self (step l) s) as [[? | ?] ?]; exact I. }
    intros v.
    eapply hoare_bind with (Q1 := fun _ s => model_training s = true).
    { intros s _. reflexivity. }
    intros ?.
    eapply hoare_bind with (Q1 := fun _ => modes true).
    { intros s Hs. split; [exact Hs | reflexivity]. }
    intros ?.
    eapply hoare_bind with (Q1 := fun _ => modes true).
    { intros s [H1 H2].
      pose proof (save_model_keeps_but_saved self v.1 (best_acc l) (step l)
                    (best_step l) s) as Hk.
      cbv beta in Hk. injection Hk as _ _ _ _ _ K1 K2.
      destruct (save_model self v.1 (best_acc l) (step l) (best_step l) s)
        as [[? | ?] s']; cbn [snd] in *; [split; congruence | exact I]. }
    intros best. apply hoare_ret. auto. }
  intros l'.
  eapply hoare_bind with (Q1 := fun _ => modes true); [intros s Hs; exact Hs |].
  intros ?. apply hoare_ret. auto.
Qed.

Lemma run_modes (self : Train) :
  hoare (fun _ => True) (run self) (fun _ => modes false) (fun _ _ => True).
Proof.
  unfold run.
  eapply hoare_bind with (Q1 := fun _ _ => True); [intros s _; exact I |].
  intros ?.
  eapply hoare_bind with (Q1 := fun _ _ => True); [intros s _; exact I |].
  intros ?.
  eapply hoare_bind with (Q1 := fun _ _ => True).
  { intros s _. destruct (run_epochs _ _ _ s) as [[? | ?] ?]; exact I. }
  intros l.
  eapply hoare_bind; [apply evaluate_modes |]. intros v.
  eapply hoare_bind with (Q1 := fun _ => modes false).
  { intros s [H1 H2].
    pose proof (save_model_keeps_but_saved self v.1 (best_acc l) (step l)
                  (best_step l) s) as Hk.
    cbv beta in Hk. injection Hk as _ _ _ _ _ K1 K2.
    destruct (save_model self v.1 (best_acc l) (step l) (best_step l) s)
      as [[? | ?] s']; cbn [snd] in *; [split; congruence | exact I]. }
  intros best. apply hoare_ret. auto.
Qed.

(** X5. [evaluate_attribute] leaves model and head in inference mode; a
    training batch that starts in training mode and completes ends in
    training mode, also after an evaluation; a run that completes leaves
    both in inference mode. *)
Theorem training_and_inference_modes (self : Train) :
  (forall st, modes false (evaluate_attribute self st).2)
  /\ (forall l b st,
        modes true st -> is_ok (train_batch self l b st).1 = true ->
        modes true (train_batch self l b st).2)
  /\ (forall st, is_ok (run self st).1 = true -> modes false (run self st).2).
Proof.
  split; [apply evaluate_attribute_modes | split].
  - intros l b st Hm Hok. pose proof (train_batch_modes self l b st Hm) as H.
    destruct (train_batch self l b st) as [[? | ?] ?]; [exact H | discriminate].
  - intros st Hok. pose proof (run_modes self st I) as H.
    destruct (run self st) as [[? | ?] ?]; [exact H | discriminate].
Qed.

Lemma keeps_saved_hoare {A} (self : Train) (m : M State A) best best_step :
  keeps saved m ->
  hoare (newest_is_best self best best_step) m
    (fun _ => newest_is_best self best best_step) (fun _ _ => True).
Proof.
  intros Hm s Hs. specialize (Hm s). unfold newest_is_best in *.
  destruct (m s) as [[a | e] s']; cbn [snd] in Hm; [| exact I].
  rewrite Hm. exact Hs.
Qed.

Lemma save_model_newest (self : Train) v best step best_step :
  hoare (newest_is_best self best best_step)
    (save_model self v best step best_step)
    (fun r => newest_is_best self r.1 r.2) (fun _ _ => True).
Proof.
  intros s Hs. unfold save_model.
  destruct (improves _ _ _); [| exact Hs].
  cbn. unfold newest_is_best. cbn. auto.
Qed.

Lemma train_batch_newest (self : Train) (l : Locals) (b : Batch Img) :
  hoare (newest_is_best self (best_acc l) (best_step l)) (train_batch self l b)
    (fun l' => newest_is_best self (best_acc l') (best_step l'))
    (fun _ _ => True).
Proof.
  unfold train_batch.
  eapply hoare_bind; [apply keeps_saved_hoare; unfold forward; keeps_tac |].
  intros outputs.
  eapply hoare_bind;
    [apply keeps_saved_hoare; unfold optimizer_step; keeps_tac |].
  intros ?.
  eapply hoare_bind; [apply keeps_saved_hoare; keeps_tac |]. intros r1.
  eapply hoare_bind;
    [apply keeps_saved_hoare; unfold add_scalar; keeps_tac |].
  intros running.
  eapply hoare_bind; [apply keeps_saved_hoare; keeps_tac |]. intros r2.
  eapply hoare_bind with
    (Q1 := fun l' => newest_is_best self (best_acc l') (best_step l')).
  { destruct (Nat.eqb r2 0 && negb (Nat.eqb (step l) 0)); [| apply hoare_ret; auto].
    eapply hoare_bind.
    { apply keeps_saved_hoare. intros s.
      pose proof (evaluate_keeps_learning_state self (step l) s) as H.
      unfold learning_state in H. congruence. }
    intros v.
    eapply hoare_bind;
      [apply keeps_saved_hoare; unfold model_set_mode; keeps_tac |].
    intros ?.
    eapply hoare_bind;
      [apply keeps_saved_hoare; unfold head_set_mode; keeps_tac |].
    intros ?.
    eapply hoare_bind; [apply save_model_newest |].
    intros best. apply hoare_ret. auto. }
  intros l'.
  eapply hoare_bind; [apply keeps_saved_hoare; keeps_tac |].
  intros ?. apply hoare_ret. auto.
Qed.

Lemma run_epochs_newest (self : Train) remaining (l : Locals) :
  hoare (newest_is_best self (best_acc l) (best_step l))
    (run_epochs self remaining l)
    (fun l' => newest_is_best self (best_acc l') (best_step l'))
    (fun _ _ => True).
Proof.
  revert l. induction remaining as [| epoch later IH]; intros l.
  - apply hoare_ret. auto.
  - cbn [run_epochs].
    eapply hoare_bind;
      [apply keeps_saved_hoare; unfold iter_loader; keeps_tac |].
    intros batches.
    eapply hoare_bind.
    { apply (hoare_for_each
               (fun l' => newest_is_best self (best_acc l') (best_step l'))).
      intros. apply train_batch_newest. }
    intros l'.
    eapply hoare_bind;
      [apply keeps_saved_hoare; unfold end_of_epoch, reduce_lr; keeps_tac |].
    intros ?.
    eapply hoare_bind; [apply keeps_saved_hoare; keeps_tac |]. intros ?.
    eapply hoare_bind; [apply keeps_saved_hoare, keeps_get |].
    intros s. destruct (early_stop_stop (early_stop s)).
    + apply hoare_ret. auto.
    + apply IH.
Qed.

(** X6. In a run that starts without checkpoints and completes, the score
    and step [save_model] returned last are those of the newest checkpoint,
    or the initial ones when none was written. *)
Theorem newest_checkpoint_is_best (self : Train) st :
  saved st = [] ->
  match run self st with
  | (Ok (best, _), st') => newest_is_best self best.1 best.2 st'
  | (Raise _, _) => True
  end.
Proof.
  intros Hsaved.
  assert (H : hoare (fun s => saved s = []) (run self)
                (fun r => newest_is_best self r.1.1 r.1.2) (fun _ _ => True)).
  { unfold run.
    eapply hoare_bind with
      (Q1 := fun _ => newest_is_best self (best_acc (initial_locals self))
                        (best_step (initial_locals self))).
    { intros s Hs. unfold newest_is_best. cbn. rewrite Hs. auto. }
    intros ?.
    eapply hoare_bind;
      [apply keeps_saved_hoare; unfold head_set_mode; keeps_tac |].
    intros ?.
    eapply hoare_bind; [apply run_epochs_newest |]. intros l.
    eapply hoare_bind.
    { apply keeps_saved_hoare. intros s.
      pose proof (evaluate_keeps_learning_state self (step l) s) as H.
      unfold learning_state in H. congruence. }
    intros v.
    eapply hoare_bind; [apply save_model_newest |].
    intros best. apply hoare_ret. auto. }
  specialize (H st Hsaved).
  destruct (run self st) as [[[best bstep] | e] st']; [exact H | exact I].
Qed.

(** X7. Through any sequence of evaluations that starts from a best score
    other than NaN, the best score [save_model] ends with is improved on
    by none of the scores seen nor by the initial one; it is the initial
    record with no checkpoint written, or one of the evaluations, whose
    checkpoint is then the newest. *)
Theorem checkpointing_best (self : Train) (evals : list (pyfloat * nat))
    (best : pyfloat * nat) (st : State) :
  best.1 <> NaN ->
  exists final st',
    checkpointing self evals best st = (Ok final, st')
    /\ final.1 <> NaN
    /\ improves (max_or_min (config self)) best.1 final.1 = false
    /\ Forall (fun ev => improves (max_or_min (config self)) ev.1 final.1 = false)
         evals
    /\ ((final = best /\ saved st' = saved st)
        \/ (final ∈ evals
            /\ exists older, saved st' = checkpoint_of st final.1 final.2 :: older)).
Proof.
  revert best st. induction evals as [| ev evals IH]; intros best st Hbest.
  - exists best, st. repeat split; auto using improves_irrefl.
  - unfold checkpointing in *. cbn [for_each]. unfold bind at 1.
    destruct (improves (max_or_min (config self)) ev.1 best.1) eqn:E.
    + rewrite save_model_improved by exact E.
      destruct (IH (ev.1, ev.2)
                  (set_saved (cons (checkpoint_of st ev.1 ev.2)) st))
        as (final & st' & Hrun & Hnan & Hev & Hall & Hlast).
      { cbn. eapply improves_not_nan, E. }
      cbn [fst snd] in *. exists final, st'. split; [exact Hrun |].
      split; [exact Hnan |]. split; [| split].
      * destruct (improves _ best.1 final.1) eqn:E2; [| reflexivity].
        rewrite (improves_trans _ _ _ _ E E2) in Hev. discriminate.
      * constructor; assumption.
      * right. destruct Hlast as [[-> Hs] | [Hin [older Hs]]].
        -- split; [destruct ev; left |]. rewrite Hs. eexists. reflexivity.
        -- split; [right; exact Hin |]. exists older. exact Hs.
    + rewrite save_model_not_improved by exact E.
      destruct (IH (best.1, best.2) st) as (final & st' & Hrun & Hnan & Hev & Hall & Hlast);
        [exact Hbest |].
      cbn [fst snd] in *. exists final, st'. split; [exact Hrun |].
      split; [exact Hnan |]. split; [exact Hev | split].
      * constructor; [| exact Hall].
        eapply improves_neg_trans; [exact Hbest | exact E | exact Hev].
      * destruct Hlast as [[-> Hs] | [Hin Hs]].
        -- left. split; [destruct best; reflexivity | exact Hs].
        -- right. split; [right; exact Hin | exact Hs].
Qed.

Lemma py_mod_ok (a b : nat) : b <> 0 -> py_mod a b = Ok (a mod b).
Proof. destruct b; [done | reflexivity]. Qed.

(** A batch up to the logging of the training loss: with a logging cadence
    other than 0 it reaches the test of line 133 with one more optimizer
    update and nothing else of note changed. *)
Lemma train_batch_after_logging (self : Train) (l : Locals) (b : Batch Img) st :
  tensorboard_loss_every self <> 0 ->
  exists running s2,
    (saved s2 = saved st /\ iters s2 = iters st
     /\ opt_steps s2 = S (opt_steps st) /\ batch_log s2 = batch_log st)
    /\ train_batch self l b st
       = bind (lift (py_mod (step l) (evaluate_every self)))
           (fun r =>
              bind
                (if Nat.eqb r 0 && negb (Nat.eqb (step l) 0) then
                   v <- evaluate self (step l) ;;
                   model_set_mode true ;;
                   head_set_mode true ;;
                   best <- save_model self v.1 (best_acc l) (step l) (best_step l) ;;
                   ret (mkLocals running (step l) v.1 v.2 best.1 best.2)
                 else
                   ret (mkLocals running (step l) (val_acc l) (val_loss l)
                          (best_acc l) (best_step l)))
                (fun l' =>
                   modify (fun s => set_batch_log (cons (S (step l'), opt_steps s)) s) ;;
                   ret (mkLocals (running_loss l') (S (step l')) (val_acc l')
                          (val_loss l') (best_acc l') (best_step l'))))
           s2.
Proof.
  intros Ht. unfold train_batch.
  unfold bind at 1. unfold forward at 1. unfold bind at 1, get, ret.
  cbn beta iota. unfold bind at 1. unfold optimizer_step at 1, modify.
  cbn beta iota. unfold bind at 1. rewrite (py_mod_ok _ _ Ht).
  unfold lift at 1. cbn beta iota. unfold bind at 1.
  set (s1 := set_opt_steps S _).
  set (log := if Nat.eqb (step l mod tensorboard_loss_every self) 0
              then _ else _).
  assert (Hlog : exists running s2, log s1 = (Ok running, s2)
                   /\ saved s2 = saved st /\ iters s2 = iters st
                   /\ opt_steps s2 = S (opt_steps st)
                   /\ batch_log s2 = batch_log st).
  { unfold log. destruct (Nat.eqb _ 0); eexists _, _; (split; [reflexivity |]);
      repeat split. }
  destruct Hlog as (running & s2 & -> & H1 & H2 & H3 & H4).
  exists running, s2. split; [auto |]. reflexivity.
Qed.

(** X8. A batch at step 0, or at a step that is no multiple of
    [evaluate_every], runs no evaluation: whether it returns or raises, it
    writes no checkpoint and does not iterate the validation loader; when
    it returns, the optimizer was updated once, the step is one higher, and
    the validation results and the best score and step are those of the
    batch before. *)
Theorem train_batch_without_evaluation (self : Train) (l : Locals)
    (b : Batch Img) st :
  step l = 0 \/ step l mod evaluate_every self <> 0 ->
  saved (train_batch self l b st).2 = saved st
  /\ iters (train_batch self l b st).2 = iters st
  /\ (forall l', (train_batch self l b st).1 = Ok l' ->
        step l' = S (step l)
        /\ (val_acc l', val_loss l', best_acc l', best_step l')
           = (val_acc l, val_loss l, best_acc l, best_step l)
        /\ opt_steps (train_batch self l b st).2 = S (opt_steps st)).
Proof.
  intros Hdue.
  destruct (Nat.eq_dec (tensorboard_loss_every self) 0) as [Ht | Ht].
  { unfold train_batch.
    unfold bind at 1. unfold forward at 1. unfold bind at 1, get, ret.
    cbn beta iota. unfold bind at 1. unfold optimizer_step at 1, modify.
    cbn beta iota. unfold bind at 1. rewrite Ht. cbn.
    repeat split; intros; discriminate. }
  destruct (train_batch_after_logging self l b st Ht)
    as (running & s2 & (H1 & H2 & H3 & H4) & ->).
  match goal with
  | |- context [bind _ ?k s2] => set (rest := k)
  end.
  unfold bind, lift, py_mod.
  destruct (evaluate_every self) as [| every] eqn:He.
  { cbn [fst snd]. repeat split; first [assumption | discriminate]. }
  set (r := step l mod S every) in *.
  assert (Hno : Nat.eqb r 0 && negb (Nat.eqb (step l) 0) = false).
  { destruct Hdue as [-> | Hne]; [apply andb_false_r |].
    apply Nat.eqb_neq in Hne. rewrite Hne. reflexivity. }
  unfold rest. rewrite Hno. unfold bind, ret, modify. cbn.
  repeat split; try assumption;
    match goal with H : Ok _ = Ok _ |- _ => injection H as <- end; reflexivity.
Qed.

(** X9. With [tensorboard_loss_every] at 0 every batch raises
    [ZeroDivisionError], after the optimizer update and before the step
    counter moves. *)
Theorem train_batch_zero_cadence (self : Train) (l : Locals) (b : Batch Img) st :
  tensorboard_loss_every self = 0 ->
  (train_batch self l b st).1 = Raise ZeroDivisionError
  /\ opt_steps (train_batch self l b st).2 = S (opt_steps st)
  /\ batch_log (train_batch self l b st).2 = batch_log st.
Proof.
  intros Ht. unfold train_batch.
  unfold bind at 1. unfold forward at 1. unfold bind at 1, get, ret.
  cbn beta iota. unfold bind at 1. unfold optimizer_step at 1, modify.
  cbn beta iota. unfold bind at 1. rewrite Ht. cbn. auto.
Qed.



Lemma np_unique_counts_positive (targets : list nat) :
  Forall (fun c => 0 < c) (np_unique_counts targets).
Proof.
  unfold np_unique_counts. apply Forall_forall. intros c Hc.
  apply list_elem_of_filter in Hc. apply Hc.
Qed.

Lemma np_unique_counts_nonempty (targets : list nat) :
  targets <> [] -> np_unique_counts targets <> [].
Proof.
  intros Hne. destruct targets as [| t targets]; [done |].
  assert (Hin : length (filter (fun x => x = t) (t :: targets))
                ∈ np_unique_counts (t :: targets)).
  { unfold np_unique_counts. apply list_elem_of_filter. split.
    - rewrite filter_cons_True by done. simpl. lia.
    - apply list_elem_of_fmap. exists t. split; [reflexivity |].
      apply elem_of_seq. split; [lia |].
      assert (t <= max_list (t :: targets)); [| lia].
      apply max_list_elem_of_le. left. }
  intros Hnil. rewrite Hnil in Hin. inversion Hin.
Qed.

(** X12. The class weights of lines 52-53: without targets [np.max]
    raises [ValueError]; otherwise there is one weight for each class that
    occurs, no weight is below 1, a class with the largest count has weight
    exactly 1, and of two classes the one with fewer samples never has the
    smaller weight. *)
Theorem class_weights_balance (targets : list nat) :
  (targets = [] ->
   exists msg, class_weights targets = Raise (ValueError msg))
  /\ (targets <> [] ->
      exists ws,
        class_weights targets = Ok ws
        /\ length ws = length (np_unique_counts targets)
        /\ Forall (fun w => (1 <= w)%Q) ws
        /\ Exists (fun w => (w == 1)%Q) ws
        /\ (forall i w,
              ws !! i = Some w ->
              np_unique_counts targets !! i
              = Some (max_list (np_unique_counts targets)) ->
              (w == 1)%Q)
        /\ (forall i j wi wj ci cj,
              ws !! i = Some wi -> ws !! j = Some wj ->
              np_unique_counts targets !! i = Some ci ->
              np_unique_counts targets !! j = Some cj ->
              ci <= cj -> (wj <= wi)%Q)).
Proof.
  split; [intros ->; eexists; reflexivity |].
  intros Hne. unfold class_weights.
  pose proof (np_unique_counts_nonempty targets Hne) as Hcne.
  pose proof (np_unique_counts_positive targets) as Hpos.
  pose proof (max_list_elem_of _ Hcne) as Hmax.
  assert (Hle : Forall (fun c => c <= max_list (np_unique_counts targets))
                  (np_unique_counts targets)).
  { apply Forall_forall. intros c Hc. apply max_list_elem_of_le, Hc. }
  destruct (np_unique_counts targets) as [| c0 cs] eqn:E; [done |].
  rewrite <- E in *. clear E Hcne c0 cs.
  set (counts := np_unique_counts targets) in *.
  set (m := max_list counts) in *.
  rewrite Forall_forall in Hpos, Hle.
  assert (Hm : 0 < m) by (apply Hpos, Hmax).
  eexists. split; [reflexivity |].
  split; [apply length_fmap |].
  split; [| split; [| split]].
  - apply Forall_fmap. apply Forall_forall.
    intros c Hc. specialize (Hpos c Hc). specialize (Hle c Hc).
    unfold compose, Qle. cbn [Qnum Qden].
    assert (Z.pos (Pos.of_nat c) = Z.of_nat c) by lia. lia.
  - apply Exists_exists. exists (Z.of_nat m # Pos.of_nat m). split.
    + apply list_elem_of_fmap. exists m. split; [reflexivity | exact Hmax].
    + unfold Qeq. cbn [Qnum Qden].
      assert (Z.pos (Pos.of_nat m) = Z.of_nat m) by lia. lia.
  - intros i w Hw Hc. rewrite list_lookup_fmap, Hc in Hw.
    injection Hw as <-. unfold Qeq. cbn [Qnum Qden].
    assert (Z.pos (Pos.of_nat m) = Z.of_nat m) by lia. lia.
  - intros i j wi wj ci cj Hwi Hwj Hci Hcj Hcc.
    rewrite list_lookup_fmap, Hci in Hwi. rewrite list_lookup_fmap, Hcj in Hwj.
    injection Hwi as <-. injection Hwj as <-.
    pose proof (Hpos ci (list_elem_of_lookup_2 _ _ _ Hci)) as Hi.
    pose proof (Hpos cj (list_elem_of_lookup_2 _ _ _ Hcj)) as Hj.
    unfold Qle. cbn [Qnum Qden].
    assert (Z.pos (Pos.of_nat ci) = Z.of_nat ci) by lia.
    assert (Z.pos (Pos.of_nat cj) = Z.of_nat cj) by lia. nia.
Qed.

(** X13. Past the head selection, the construction of a recognition
    trainer raises [NameError]: lines 62-64 call [get_val_pair], which the
    module does not bind. *)
Theorem init_rest_recognition (cfg : Config) (head_class : Head) :
  attribute cfg = "recognition" ->
  init_rest cfg head_class = Raise (NameError "get_val_pair").
Proof.
  intros Hattr. unfold init_rest. rewrite Hattr.
  rewrite bool_decide_eq_false_2; [reflexivity |].
  intros Hin. repeat (apply elem_of_cons in Hin as [Hin | Hin]; [discriminate |]).
  inversion Hin.
Qed.

Lemma argmax_from_first_maximum (seen rest : list Q) (best : Q) (besti : nat) :
  seen !! besti = Some best ->
  (forall y, y ∈ seen -> (y <= best)%Q) ->
  (forall j y, j < besti -> seen !! j = Some y -> (y < best)%Q) ->
  first_maximum (seen ++ rest) (argmax_from best besti (length seen) rest).
Proof.
  revert seen best besti. induction rest as [| x rest IH];
    intros seen best besti Hbest Hmax Hfirst.
  - cbn [argmax_from]. rewrite app_nil_r. exists best. auto.
  - cbn [argmax_from].
    replace (seen ++ x :: rest)%list with ((seen ++ [x]) ++ rest)%list
      by (rewrite <- app_assoc; reflexivity).
    replace (S (length seen)) with (length (seen ++ [x])%list)
      by (rewrite length_app; simpl; lia).
    destruct (Qltb best x) eqn:E.
    + apply Qltb_lt in E. apply IH.
      * rewrite lookup_app_r by lia. rewrite Nat.sub_diag. reflexivity.
      * intros y Hy. apply elem_of_app in Hy as [Hy | Hy].
        -- specialize (Hmax y Hy). lra.
        -- apply list_elem_of_singleton in Hy as ->. lra.
      * intros j y Hj Hy. rewrite lookup_app_l in Hy by exact Hj.
        apply list_elem_of_lookup_2 in Hy. specialize (Hmax y Hy). lra.
    + apply Qltb_false in E. apply IH.
      * apply lookup_app_l_Some, Hbest.
      * intros y Hy. apply elem_of_app in Hy as [Hy | Hy]; [auto |].
        apply list_elem_of_singleton in Hy as ->. exact E.
      * intros j y Hj Hy. apply (Hfirst j y Hj).
        rewrite lookup_app_l in Hy; [exact Hy |].
        apply lookup_lt_Some in Hbest. lia.
Qed.

(** X15. [argmax] raises on an empty row and otherwise returns the first
    position of a largest entry: ties go to the lowest index. *)
Theorem argmax_first_maximum (row : list Q) :
  (row = [] -> argmax row = Raise IndexError)
  /\ (row <> [] -> exists i, argmax row = Ok i /\ first_maximum row i).
Proof.
  split; [intros ->; reflexivity |].
  destruct row as [| x rest]; [done |]. intros _.
  eexists. split; [reflexivity |].
  apply (argmax_from_first_maximum [x] rest x 0).
  - reflexivity.
  - intros y Hy. apply list_elem_of_singleton in Hy as ->. lra.
  - intros j y Hj. lia.
Qed.



Lemma evaluate_without_batches (self : Train) (ld : Loader Img) (step : nat) st :
  attribute (config self) <> "recognition" ->
  val_loader self = Some ld ->
  ld_iter ld (iters st) = [] ->
  (evaluate self step st).1 = Raise (UnboundLocalError "outputs").
Proof.
  intros Hattr Hld Hnone. unfold evaluate.
  rewrite (proj2 (String.eqb_neq _ _) Hattr). cbn [negb].
  unfold bind at 1. rewrite (evaluate_attribute_eq self ld st Hld), Hnone.
  reflexivity.
Qed.

Lemma evaluate_without_batches_hoare (self : Train) (ld : Loader Img)
    (step : nat) (saved0 : list Checkpoint) :
  attribute (config self) <> "recognition" ->
  val_loader self = Some ld ->
  (forall n, ld_iter ld n = []) ->
  hoare (fun s => saved s = saved0) (evaluate self step)
    (fun _ _ => False) (fun _ s => saved s = saved0).
Proof.
  intros Hattr Hld Hnone s Hs.
  pose proof (evaluate_without_batches self ld step s Hattr Hld (Hnone _)) as Hr.
  pose proof (evaluate_keeps_learning_state self step s) as Hk.
  unfold learning_state in Hk.
  destruct (evaluate self step s) as [[r | e] s']; cbn [fst snd] in *;
    [discriminate Hr | congruence].
Qed.

Lemma train_batch_without_batches (self : Train) (ld : Loader Img)
    (l : Locals) (b : Batch Img) (saved0 : list Checkpoint) :
  attribute (config self) <> "recognition" ->
  val_loader self = Some ld ->
  (forall n, ld_iter ld n = []) ->
  hoare (fun s => saved s = saved0) (train_batch self l b)
    (fun _ s => saved s = saved0) (fun _ s => saved s = saved0).
Proof.
  intros Hattr Hld Hnone. unfold train_batch.
  eapply hoare_bind; [apply keeps_hoare; unfold forward; keeps_tac |].
  intros outputs.
  eapply hoare_bind; [apply keeps_hoare; unfold optimizer_step; keeps_tac |].
  intros ?.
  eapply hoare_bind; [apply keeps_hoare; keeps_tac |]. intros r1.
  eapply hoare_bind; [apply keeps_hoare; unfold add_scalar; keeps_tac |].
  intros running.
  eapply hoare_bind; [apply keeps_hoare; keeps_tac |]. intros r2.
  eapply hoare_bind with (Q1 := fun _ s => saved s = saved0).
  { destruct (Nat.eqb r2 0 && negb (Nat.eqb (step l) 0)); [| apply hoare_ret; auto].
    eapply hoare_bind;
      [apply (evaluate_without_batches_hoare self ld); assumption |].
    intros v s []. }
  intros l'.
  eapply hoare_bind; [apply keeps_hoare; keeps_tac |].
  intros ?. apply hoare_ret. auto.
Qed.

Lemma run_epochs_without_batches (self : Train) (ld : Loader Img)
    (remaining : list nat) (l : Locals) (saved0 : list Checkpoint) :
  attribute (config self) <> "recognition" ->
  val_loader self = Some ld ->
  (forall n, ld_iter ld n = []) ->
  hoare (fun s => saved s = saved0) (run_epochs self remaining l)
    (fun _ s => saved s = saved0) (fun _ s => saved s = saved0).
Proof.
  intros Hattr Hld Hnone. revert l.
  induction remaining as [| epoch later IH]; intros l.
  - apply hoare_ret. auto.
  - cbn [run_epochs].
    eapply hoare_bind; [apply keeps_hoare; unfold iter_loader; keeps_tac |].
    intros batches.
    eapply hoare_bind.
    { apply (hoare_for_each (fun _ s => saved s = saved0)).
      intros. apply (train_batch_without_batches self ld); assumption. }
    intros l'.
    eapply hoare_bind;
      [apply keeps_hoare; unfold end_of_epoch, reduce_lr; keeps_tac |].
    intros ?.
    eapply hoare_bind; [apply keeps_hoare; keeps_tac |]. intros ?.
    eapply hoare_bind; [apply keeps_hoare, keeps_get |].
    intros s. destruct (early_stop_stop (early_stop s)).
    + apply hoare_ret. auto.
    + apply IH.
Qed.

(** X21. With a validation loader that yields no batch, lines 217-220 read
    the loop variable [outputs] before any iteration has bound it:
    [evaluate_attribute] raises [UnboundLocalError], and so does [evaluate]
    for every task but recognition.  A run with such a loader never
    completes and writes no checkpoint, however many batches it trains
    on. *)
Theorem validation_without_batches (self : Train) (ld : Loader Img) :
  val_loader self = Some ld ->
  (forall st, ld_iter ld (iters st) = [] ->
     (evaluate_attribute self st).1 = Raise (UnboundLocalError "outputs")
     /\ (attribute (config self) <> "recognition" ->
         forall step,
           (evaluate self step st).1 = Raise (UnboundLocalError "outputs")))
  /\ (attribute (config self) <> "recognition" ->
      (forall n, ld_iter ld n = []) ->
      forall st,
        is_ok (run self st).1 = false /\ saved (run self st).2 = saved st).
Proof.
  intros Hld. split.
  - intros st Hnone. split.
    + rewrite (evaluate_attribute_eq self ld st Hld), Hnone. reflexivity.
    + intros Hattr step.
      exact (evaluate_without_batches self ld step st Hattr Hld Hnone).
  - intros Hattr Hnone st.
    assert (H : hoare (fun s => saved s = saved st) (run self)
                  (fun _ _ => False) (fun _ s => saved s = saved st)).
    { unfold run.
      eapply hoare_bind;
        [apply keeps_hoare; unfold model_set_mode; keeps_tac |].
      intros ?.
      eapply hoare_bind;
        [apply keeps_hoare; unfold head_set_mode; keeps_tac |].
      intros ?.
      eapply hoare_bind;
        [apply (run_epochs_without_batches self ld); assumption |].
      intros l.
      eapply hoare_bind;
        [apply (evaluate_without_batches_hoare self ld); assumption |].
      intros v s []. }
    specialize (H st eq_refl).
    destruct (run self st) as [[r | e] s']; [destruct H |].
    split; [reflexivity | exact H].
Qed.




End TrainerMore.

(** ** Further properties of the prediction loader *)

Module PredictMore.
Import Predict PredictFacts.

Section Loader.
Context `{I : Imaging}.

Lemma batch_sampler_short (batch_size : nat) (batch indices : list nat) :
  length batch + length indices < batch_size ->
  batch_sampler batch_size false batch indices
  = if Nat.ltb 0 (length (batch ++ indices)%list) then [(batch ++ indices)%list]
    else [].
Proof.
  revert batch. induction indices as [| idx rest IH]; intros batch Hlen.
  - cbn [batch_sampler negb]. rewrite andb_true_r, app_nil_r. reflexivity.
  - cbn [batch_sampler]. cbn [length] in Hlen.
    rewrite (proj2 (Nat.eqb_neq _ _)) by (rewrite length_app; simpl; lia).
    rewrite IH by (rewrite length_app; simpl; lia).
    rewrite <- app_assoc. reflexivity.
Qed.

Lemma batch_sampler_full (batch_size : nat) (batch indices : list nat) :
  length batch < batch_size ->
  batch_size <= length batch + length indices ->
  batch_sampler batch_size false batch indices
  = (batch ++ take (batch_size - length batch) indices)%list
    :: batch_sampler batch_size false []
         (drop (batch_size - length batch) indices).
Proof.
  revert batch. induction indices as [| idx rest IH]; intros batch H1 H2.
  - cbn [length] in H2. lia.
  - cbn [batch_sampler]. cbn [length] in H2.
    destruct (Nat.eqb_spec (length (batch ++ [idx])%list) batch_size) as [E | E];
      rewrite length_app in E; cbn [length] in E.
    + replace (batch_size - length batch) with 1 by lia. reflexivity.
    + rewrite IH by (rewrite ?length_app; simpl; lia).
      rewrite length_app. cbn [length].
      replace (batch_size - length batch)
        with (S (batch_size - (length batch + 1))) by lia.
      cbn [take drop]. rewrite <- app_assoc. reflexivity.
Qed.

Lemma batch_sampler_seq (batch_size : nat) (n a : nat) :
  0 < batch_size ->
  batch_sampler batch_size false [] (seq a n)
  = (fun k => seq (a + k * batch_size) (Nat.min batch_size (n - k * batch_size)))
      <$> seq 0 (batch_count batch_size n).
Proof.
  intros Hb. revert a. induction (lt_wf n) as [n _ IH]. intros a.
  unfold batch_count.
  destruct (Nat.lt_ge_cases n batch_size) as [Hlt | Hge].
  - rewrite batch_sampler_short by (rewrite length_seq; simpl; lia).
    cbn [app]. rewrite length_seq.
    destruct n as [| n].
    + rewrite Nat.div_small by lia. reflexivity.
    + replace ((S n + batch_size - 1) / batch_size) with 1.
      2: { apply Nat.div_unique with (r := n); lia. }
      cbn. rewrite Nat.add_0_r, Nat.min_r by lia. reflexivity.
  - rewrite batch_sampler_full by (rewrite ?length_seq; simpl; lia).
    cbn [length app]. rewrite Nat.sub_0_r, take_seq, drop_seq, Nat.min_l by lia.
    rewrite IH by lia.
    replace ((n + batch_size - 1) / batch_size)
      with (S ((n - batch_size + batch_size - 1) / batch_size)).
    2: { replace (n + batch_size - 1)
           with ((n - batch_size + batch_size - 1) + 1 * batch_size) by lia.
         rewrite Nat.div_add by lia. lia. }
    cbn [seq fmap list_fmap]. f_equal.
    + rewrite Nat.mul_0_l, Nat.add_0_r, Nat.sub_0_r, Nat.min_l by lia.
      reflexivity.
    + change (list_fmap ?A ?B ?f) with (fmap (M := list) f).
      rewrite <- fmap_S_seq, <- list_fmap_compose.
      apply list_fmap_ext. intros _ k _. cbn.
      f_equal; [lia | f_equal; lia].
Qed.

(** The batches of a loader without shuffling that keeps its last batch. *)
Lemma batch_indices_in_order (d : ImageList) (batch_size workers : Z) :
  (0 < batch_size)%Z ->
  batch_indices (mkDataLoader d batch_size false workers false)
  = slice (Z.to_nat batch_size) (ImageList_len d)
      <$> seq 0 (batch_count (Z.to_nat batch_size) (ImageList_len d)).
Proof.
  intros Hpos. unfold batch_indices, sampler.
  cbn [dataset dl_batch_size shuffle drop_last].
  rewrite batch_sampler_seq by lia. reflexivity.
Qed.

(** X18. For an image list of [n] rows whose names are strings, the
    prediction loader yields [ceil(n / batch_size)] batches; batch [k]
    holds the items [k * batch_size, ...], at most [batch_size] of them and
    none past [n]; an index from [n] on raises [IndexError]. *)
Theorem prediction_loader_batches (batch_size workers : Z)
    (source image_list : string) (rows : list (Cell * list Cell))
    (names : list string) :
  read_csv image_list " " = Ok rows ->
  rows.*1 = CStr <$> names ->
  (0 < batch_size)%Z ->
  (0 <= workers)%Z ->
  exists dl,
    PredictionDataLoader_init batch_size workers source image_list = Ok dl
    /\ length (DataLoader_iter dl)
       = batch_count (Z.to_nat batch_size) (length rows)
    /\ (forall k, k < batch_count (Z.to_nat batch_size) (length rows) ->
          DataLoader_iter dl !! k
          = Some (deliver workers
                    (fetch (dataset dl)
                       (slice (Z.to_nat batch_size) (length rows) k))))
    /\ (forall i, length rows <= i ->
          ImageList_getitem (dataset dl) i = Raise IndexError).
Proof.
  intros Hcsv Hnames Hpos Hw.
  eexists. split; [exact (prediction_loader_built _ _ _ _ _ _ Hcsv Hnames Hpos Hw) |].
  assert (Hrows : length rows = length names).
  { rewrite <- (length_fmap fst rows), Hnames. apply length_fmap. }
  set (d := mkImageList _ _).
  assert (Hn : ImageList_len d = length rows).
  { unfold ImageList_len, d. cbn [samples]. rewrite Hrows. apply length_fmap. }
  unfold DataLoader_iter. rewrite batch_indices_in_order by exact Hpos.
  cbn [dataset num_workers]. rewrite Hn.
  split; [| split].
  - rewrite !length_fmap, length_seq. reflexivity.
  - intros k Hk. rewrite !list_lookup_fmap, lookup_seq_lt by exact Hk.
    reflexivity.
  - intros i Hi. unfold ImageList_getitem.
    rewrite (proj2 (lookup_ge_None _ _)); [reflexivity |].
    fold (ImageList_len d). lia.
Qed.

Lemma fetch_until_failure (d : ImageList) (before after : list nat) (i : nat)
    (e : exn) :
  Forall (fun j => is_ok (ImageList_getitem d j) = true) before ->
  ImageList_getitem d i = Raise e ->
  fetch d (before ++ i :: after) = Raise e.
Proof.
  intros Hok Hi. induction Hok as [| j before Hj _ IH].
  - cbn [app fetch]. rewrite Hi. reflexivity.
  - cbn [app fetch]. destruct (ImageList_getitem d j); [| discriminate].
    cbn [rbind]. rewrite IH. reflexivity.
Qed.

Lemma fetch_all_ok (d : ImageList) (idxs : list nat) :
  Forall (fun j => is_ok (ImageList_getitem d j) = true) idxs ->
  exists xs, fetch d idxs = Ok xs /\ length xs = length idxs.
Proof.
  induction 1 as [| j idxs Hj _ (xs & IH1 & IH2)].
  - exists []. split; reflexivity.
  - cbn [fetch]. destruct (ImageList_getitem d j) as [x |]; [| discriminate].
    cbn [rbind]. rewrite IH1. exists (x :: xs). split; [reflexivity |].
    cbn [length]. congruence.
Qed.

(** X19. When the picture of row [i] is the first that cannot be loaded
    (it cannot be opened, or its conversion or one of the transforms
    raises), the batch [i / batch_size] raises that exception, from its
    wrapper when the loader has worker processes, and every batch before
    it is yielded in full. *)
Theorem unreadable_picture_fails_its_batch (batch_size workers : Z)
    (source image_list : string) (rows : list (Cell * list Cell))
    (names : list string) (i : nat) (name : string) (e : exn) :
  read_csv image_list " " = Ok rows ->
  rows.*1 = CStr <$> names ->
  (0 < batch_size)%Z ->
  (0 <= workers)%Z ->
  names !! i = Some name ->
  item source name = Raise e ->
  (forall j earlier, j < i -> names !! j = Some earlier ->
                     is_ok (item source earlier) = true) ->
  exists dl,
    PredictionDataLoader_init batch_size workers source image_list = Ok dl
    /\ DataLoader_iter dl !! (i / Z.to_nat batch_size)
       = Some (Raise (if (workers =? 0)%Z then e else reraise e))
    /\ (forall k, k < i / Z.to_nat batch_size ->
          exists xs, DataLoader_iter dl !! k = Some (Ok xs)
                     /\ length xs = Z.to_nat batch_size).
Proof.
  intros Hcsv Hnames Hpos Hw Hname Hfails Hbefore.
  eexists. split; [exact (prediction_loader_built _ _ _ _ _ _ Hcsv Hnames Hpos Hw) |].
  set (d := mkImageList _ _).
  pose proof (lookup_lt_Some _ _ _ Hname) as Hi.
  assert (Hget : forall j, j < i -> is_ok (ImageList_getitem d j) = true).
  { intros j Hj.
    destruct (names !! j) as [earlier |] eqn:Hearlier.
    - unfold d. rewrite (getitem_item source names j earlier Hearlier).
      exact (Hbefore j earlier Hj Hearlier).
    - apply lookup_ge_None in Hearlier. lia. }
  assert (Hfail : ImageList_getitem d i = Raise e).
  { unfold d. rewrite (getitem_item source names i name Hname). exact Hfails. }
  assert (Hn : ImageList_len d = length names).
  { unfold ImageList_len, d. cbn [samples]. apply length_fmap. }
  unfold DataLoader_iter. rewrite batch_indices_in_order by exact Hpos.
  cbn [dataset num_workers]. rewrite Hn.
  set (n := length names) in *.
  assert (Hbs : 0 < Z.to_nat batch_size) by lia.
  set (bs := Z.to_nat batch_size) in *.
  pose proof (Nat.div_mod_eq i bs) as Hdm.
  pose proof (Nat.mod_upper_bound i bs ltac:(lia)) as Hmod.
  set (k := i / bs) in *.
  assert (Hk : k < batch_count bs n).
  { unfold batch_count, k.
    replace (n + bs - 1) with ((n - 1) + 1 * bs) by lia.
    rewrite Nat.div_add by lia.
    pose proof (Nat.Div0.div_le_mono i (n - 1) bs ltac:(lia)). lia. }
  set (rem := i mod bs) in *. clearbody k rem bs n.
  split.
  - rewrite !list_lookup_fmap, lookup_seq_lt by exact Hk.
    cbn [fmap option_fmap option_map].
    change (0 + k) with k. f_equal. unfold slice.
    assert (Hsplit : seq (k * bs) (Nat.min bs (n - k * bs))
                     = (seq (k * bs) rem
                        ++ i :: seq (S i) (Nat.min bs (n - k * bs) - S rem))%list).
    { replace (Nat.min bs (n - k * bs))
        with (rem + S (Nat.min bs (n - k * bs) - S rem)) at 1.
      2: { nia. }
      rewrite seq_app. cbn [seq].
      replace (k * bs + rem) with i by nia. reflexivity. }
    rewrite Hsplit, (fetch_until_failure d _ _ i e); [reflexivity | | exact Hfail].
    apply Forall_forall. intros j Hj. apply elem_of_seq in Hj. apply Hget. nia.
  - intros k' Hk'.
    assert (Hfull : slice bs n k' = seq (k' * bs) bs).
    { unfold slice. f_equal. apply Nat.min_l. nia. }
    destruct (fetch_all_ok d (slice bs n k')) as (xs & Hx1 & Hx2).
    { apply Forall_forall. intros j Hj. rewrite Hfull in Hj.
      apply elem_of_seq in Hj. apply Hget. nia. }
    exists xs. rewrite !list_lookup_fmap, lookup_seq_lt by lia.
    cbn [fmap option_fmap option_map]. change (0 + k') with k'.
    rewrite Hx1. split; [reflexivity |].
    rewrite Hx2, Hfull, length_seq. reflexivity.
Qed.

Lemma all_names_strings (cells : list Cell) :
  Forall (fun c => is_str c = true) cells ->
  exists names, cells = CStr <$> names.
Proof.
  induction 1 as [| c cells Hc _ (names & ->)]; [exists []; reflexivity |].
  destruct c as [s | | |]; try discriminate Hc.
  exists (s :: names). reflexivity.
Qed.

Lemma names_strings_or_not (cells : list Cell) :
  Forall (fun c => is_str c = true) cells
  \/ Exists (fun c => is_str c = false) cells.
Proof.
  induction cells as [| c cells [IH | IH]].
  - left. constructor.
  - destruct (is_str c) eqn:Hc.
    + left. constructor; assumption.
    + right. apply Exists_cons_hd. exact Hc.
  - right. apply Exists_cons_tl. exact IH.
Qed.

(** X20. [PredictionDataLoader] is built exactly when the image list can
    be read, every name in it is a string, the batch size is at least 1
    and the number of workers is not negative.  The image list comes first:
    the error of [read_csv], and after it the [TypeError] of a name that is
    no string, are raised whatever the batch size and the number of workers
    are; a [ValueError] for these is raised only for a list that is read
    and holds strings only. *)
Theorem prediction_loader_construction_errors (batch_size workers : Z)
    (source image_list : string) :
  (forall e, read_csv image_list " " = Raise e ->
     PredictionDataLoader_init batch_size workers source image_list = Raise e)
  /\ (forall rows, read_csv image_list " " = Ok rows ->
        Exists (fun c => is_str c = false) rows.*1 ->
        exists msg,
          PredictionDataLoader_init batch_size workers source image_list
          = Raise (TypeError msg))
  /\ (forall rows, read_csv image_list " " = Ok rows ->
        Forall (fun c => is_str c = true) rows.*1 ->
        (workers < 0 \/ batch_size <= 0)%Z ->
        exists msg,
          PredictionDataLoader_init batch_size workers source image_list
          = Raise (ValueError msg))
  /\ (is_ok (PredictionDataLoader_init batch_size workers source image_list)
      = true
      <-> exists rows,
            read_csv image_list " " = Ok rows
            /\ Forall (fun c => is_str c = true) rows.*1
            /\ (0 < batch_size)%Z /\ (0 <= workers)%Z).
Proof.
  assert (Hread : forall e, read_csv image_list " " = Raise e ->
            PredictionDataLoader_init batch_size workers source image_list
            = Raise e).
  { intros e He. unfold PredictionDataLoader_init, ImageList_init.
    rewrite He. reflexivity. }
  assert (Hname : forall rows, read_csv image_list " " = Ok rows ->
            Exists (fun c => is_str c = false) rows.*1 ->
            exists msg,
              PredictionDataLoader_init batch_size workers source image_list
              = Raise (TypeError msg)).
  { intros rows Hrows Hex.
    destruct (join_all_not_a_name source _ Hex) as (msg & Hmsg).
    exists msg. unfold PredictionDataLoader_init, ImageList_init.
    rewrite Hrows. cbn [rbind]. rewrite Hmsg. reflexivity. }
  assert (Hvalue : forall rows, read_csv image_list " " = Ok rows ->
            Forall (fun c => is_str c = true) rows.*1 ->
            (workers < 0 \/ batch_size <= 0)%Z ->
            exists msg,
              PredictionDataLoader_init batch_size workers source image_list
              = Raise (ValueError msg)).
  { intros rows Hrows Hall Hargs.
    destruct (all_names_strings _ Hall) as (names & Hnames).
    unfold PredictionDataLoader_init, ImageList_init.
    rewrite Hrows. cbn [rbind]. rewrite Hnames, join_all_names. cbn [rbind].
    unfold DataLoader_init.
    destruct (Z.ltb_spec workers 0) as [Hw | Hw]; [eexists; reflexivity |].
    rewrite (proj2 (Z.leb_le _ _)) by lia. eexists; reflexivity. }
  split; [exact Hread |]. split; [exact Hname |]. split; [exact Hvalue |].
  split.
  - intros Hok.
    destruct (read_csv image_list " ") as [rows | e] eqn:Hrows.
    2: { rewrite (Hread e eq_refl) in Hok. discriminate Hok. }
    exists rows. split; [reflexivity |].
    destruct (names_strings_or_not rows.*1) as [Hall | Hex].
    2: { destruct (Hname rows eq_refl Hex) as (msg & Hmsg).
         rewrite Hmsg in Hok. discriminate Hok. }
    split; [exact Hall |].
    destruct (Z.lt_ge_cases workers 0) as [Hw | Hw].
    { destruct (Hvalue rows eq_refl Hall (or_introl Hw)) as (msg & Hmsg).
      rewrite Hmsg in Hok. discriminate Hok. }
    destruct (Z.le_gt_cases batch_size 0) as [Hb | Hb].
    { destruct (Hvalue rows eq_refl Hall (or_intror Hb)) as (msg & Hmsg).
      rewrite Hmsg in Hok. discriminate Hok. }
    split; assumption.
  - intros (rows & Hrows & Hall & Hb & Hw).
    destruct (all_names_strings _ Hall) as (names & Hnames).
    rewrite (prediction_loader_built _ _ _ _ _ _ Hrows Hnames Hb Hw).
    reflexivity.
Qed.

End Loader.
End PredictMore.

(** ** Examples *)

Section Examples.
Import Demo.

Lemma save_model_checkpoints_improvements_witness :
  let self := trainer "gender" "max" false val_batches in
  let out :=
    checkpointing self [(Fin 0.5, 1); (Fin 0.6, 2); (Fin 0.55, 3)]
      (initial_best self, 0) (state0 None) in
  out.1 = Ok (Fin 0.6, 2)
  /\ saved out.2
     = [checkpoint_of (state0 None) (Fin 0.6) 2; checkpoint_of (state0 None) (Fin 0.5) 1].
Proof.
  exact (proj2 (save_model_checkpoints_improvements
                  (trainer "gender" "max" false val_batches))
           eq_refl 1 2 3 (state0 None)).
Defined.

Lemma end_of_epoch_learning_rate_witness :
  exists self st,
    init_rest (C := collaborators) (cfg "gender" "max" false) GenderHead
    = Ok (self, st)
    /\ end_of_epoch self 0 (Fin 0) st = (Raise (AttributeError "scheduler"), st).
Proof.
  eexists _, _. split; [reflexivity |].
  match goal with
  | |- end_of_epoch ?self _ _ ?st = _ =>
      destruct (end_of_epoch_learning_rate self 0 (Fin 0) st) as (_ & _ & H & _)
  end.
  apply H; [| reflexivity | reflexivity].
  intros Hin. apply list_elem_of_singleton in Hin. discriminate Hin.
Defined.

Lemma evaluate_recognition_task_raises_witness :
  (evaluate recognition_trainer 3 (state0 (Some tt))).1
  = Raise (NameError "evaluate").
Proof.
  exact (proj2 (evaluate_recognition_task_raises recognition_trainer 3
                  (state0 (Some tt)) eq_refl) _ eq_refl).
Defined.

Lemma first_save_model_writes_witness :
  let self := trainer "age" "min" false age_batches in
  save_model self (Fin 7.25) (best_acc (initial_locals self)) 5
    (best_step (initial_locals self)) (state0 None)
  = (Ok (Fin 7.25, 5), set_saved (cons (checkpoint_of (state0 None) (Fin 7.25) 5)) (state0 None)).
Proof.
  exact (proj2 (proj2 (first_save_model_writes
                         (trainer "age" "min" false age_batches) (Fin 7.25) 5
                         (state0 None) eq_refl (or_intror eq_refl)))).
Defined.

(** The three batches have 4, 4 and 2 rows: the loss reported is that of
    the last one, 2, not the mean 10/3 of the three. *)
Lemma validation_loss_of_last_batch_witness :
  (evaluate (trainer "gender" "max" false val_batches) 7 (state0 None)).1
  = Ok (Fin (py_round (6 # 10) 4), py_round 2 4).
Proof.
  refine (proj1 (validation_loss_of_last_batch
                   (trainer "gender" "max" false val_batches)
                   (mkLoader 3 (fun _ => val_batches) []) (state0 None) 7
                   (take 2 val_batches)
                   (mkBatch ([0.7; 0.3]%Q, ClassLabel 0)
                      [([0.2; 0.8]%Q, ClassLabel 0)])
                   _ eq_refl eq_refl)).
  discriminate.
Defined.

Lemma step_counts_optimizer_updates_witness :
  exists n,
    batch_log (run (trainer "gender" "max" true val_batches)
                 (state0 (Some tt))).2
    = batch_log_upto n
    /\ (opt_steps (run (trainer "gender" "max" true val_batches)
                     (state0 (Some tt))).2 = n
        \/ opt_steps (run (trainer "gender" "max" true val_batches)
                        (state0 (Some tt))).2 = S n)
    /\ (is_ok (run (trainer "gender" "max" true val_batches)
                 (state0 (Some tt))).1 = true ->
        opt_steps (run (trainer "gender" "max" true val_batches)
                     (state0 (Some tt))).2 = n).
Proof.
  exact (proj2 (step_counts_optimizer_updates
                  (trainer "gender" "max" true val_batches))
           (state0 (Some tt)) eq_refl eq_refl).
Defined.

Lemma prediction_loader_in_file_order_witness :
  exists dl,
    Predict.PredictionDataLoader_init (I := imaging) 2 4 "imgs" "list.txt"
    = Ok dl
    /\ Predict.shuffle dl = false /\ Predict.drop_last dl = false
    /\ Predict.ImageList_len (Predict.dataset dl) = 3
    /\ concat (Predict.batch_indices dl) = [0; 1; 2]
    /\ exists batches,
         Predict.DataLoader_iter dl = Ok <$> batches
         /\ concat batches
            = ["imgs/a.jpg:RGB:112x112:tensor:normalized";
               "/abs/b.jpg:RGB:112x112:tensor:normalized";
               "imgs/c.jpg:RGB:112x112:tensor:normalized"].
Proof.
  destruct (PredictFacts.prediction_loader_in_file_order (I := imaging)
              2 4 "imgs" "list.txt" _ ["a.jpg"; "/abs/b.jpg"; "c.jpg"]
              eq_refl eq_refl ltac:(lia) ltac:(lia))
    as (dl & H1 & H2 & H3 & H4 & _ & H6 & _ & _ & H9).
  exists dl. repeat (split; [assumption |]).
  apply H9. repeat constructor.
Defined.

(** An image list whose first line is [NA 0] has two rows, but no image
    list and no loader is built from it: the name of the first row is read
    as a missing value, which line 15 cannot join to the source directory.
    Nor is a loader built with a batch size of 0 or a negative number of
    workers. *)
Lemma prediction_loader_reparsed_name :
  Predict.read_csv (Imaging := imaging_reparsed) "list.txt" " "
  = Ok [(Predict.CFloat NaN, [Predict.CInt 0]);
        (Predict.CStr "b.jpg", [Predict.CInt 1])]
  /\ (exists msg,
        Predict.ImageList_init (I := imaging_reparsed) "imgs" "list.txt"
        = Raise (TypeError msg))
  /\ (exists msg,
        Predict.PredictionDataLoader_init (I := imaging_reparsed) 2 4 "imgs"
          "list.txt"
        = Raise (TypeError msg))
  /\ ~ (exists dl,
          Predict.PredictionDataLoader_init (I := imaging_reparsed) 2 4 "imgs"
            "list.txt"
          = Ok dl
          /\ Predict.ImageList_len (Predict.dataset dl) = 2)
  /\ (exists msg,
        Predict.PredictionDataLoader_init (I := imaging) 0 4 "imgs" "list.txt"
        = Raise (ValueError msg))
  /\ (exists msg,
        Predict.PredictionDataLoader_init (I := imaging) 2 (-1) "imgs"
          "list.txt"
        = Raise (ValueError msg)).
Proof.
  split; [reflexivity |].
  split; [eexists; reflexivity |].
  split; [eexists; reflexivity |].
  split; [intros (dl & H & _); discriminate H |].
  split; eexists; reflexivity.
Qed.

End Examples.

Section MoreExamples.
Import Demo.

Lemma no_checkpoint_without_direction_witness :
  saved (run undirected_trainer (state0 (Some tt))).2 = [].
Proof.
  refine (proj1 (proj2 (no_checkpoint_without_direction undirected_trainer
                          (state0 (Some tt)) _ _))); discriminate.
Defined.

Lemma run_recognition_raises_witness :
  is_ok (run recognition_trainer (state0 (Some tt))).1 = false.
Proof.
  exact (run_recognition_raises recognition_trainer (state0 (Some tt)) eq_refl).
Defined.

Lemma training_and_inference_modes_witness :
  modes false (run (trainer "gender" "max" true val_batches)
                 (state0 (Some tt))).2.
Proof.
  refine (proj2 (proj2 (training_and_inference_modes
                          (trainer "gender" "max" true val_batches)))
            (state0 (Some tt)) _).
  vm_compute. reflexivity.
Defined.

Lemma newest_checkpoint_is_best_witness :
  match run (trainer "gender" "max" true val_batches) (state0 (Some tt)) with
  | (Ok (best, _), st') =>
      newest_is_best (trainer "gender" "max" true val_batches) best.1 best.2 st'
  | (Raise _, _) => True
  end.
Proof.
  exact (newest_checkpoint_is_best (trainer "gender" "max" true val_batches)
           (state0 (Some tt)) eq_refl).
Defined.

Lemma checkpointing_best_witness :
  let self := trainer "age" "min" false age_batches in
  exists final st',
    checkpointing self [(Fin 4.5, 1); (Fin 3.25, 2); (Fin 3.5, 3)]
      (initial_best self, 0) (state0 None)
    = (Ok final, st')
    /\ final.1 <> NaN
    /\ improves "min" PosInf final.1 = false
    /\ Forall (fun ev => improves "min" ev.1 final.1 = false)
         [(Fin 4.5, 1); (Fin 3.25, 2); (Fin 3.5, 3)]
    /\ ((final = (PosInf, 0) /\ saved st' = [])
        \/ (final ∈ [(Fin 4.5, 1); (Fin 3.25, 2); (Fin 3.5, 3)]
            /\ exists older,
                saved st'
                = checkpoint_of (state0 None) final.1 final.2 :: older)).
Proof.
  refine (checkpointing_best (trainer "age" "min" false age_batches)
            [(Fin 4.5, 1); (Fin 3.25, 2); (Fin 3.5, 3)] (PosInf, 0)
            (state0 None) _).
  discriminate.
Defined.

Lemma train_batch_without_evaluation_witness :
  let out :=
    train_batch (trainer "gender" "max" true val_batches) (locals_at 0)
      (mkBatch ([0.5; 0.5]%Q, ClassLabel 0) []) (state0 (Some tt)) in
  saved out.2 = [] /\ iters out.2 = 0
  /\ (forall l', out.1 = Ok l' ->
        step l' = 1
        /\ (val_acc l', val_loss l', best_acc l', best_step l')
           = (Fin 0, 0%Q, NegInf, 0)
        /\ opt_steps out.2 = 1).
Proof.
  exact (train_batch_without_evaluation
           (trainer "gender" "max" true val_batches) (locals_at 0)
           (mkBatch ([0.5; 0.5]%Q, ClassLabel 0) []) (state0 (Some tt))
           (or_introl eq_refl)).
Defined.

Lemma train_batch_zero_cadence_witness :
  (train_batch stalled_trainer (locals_at 3)
     (mkBatch ([0.5; 0.5]%Q, ClassLabel 0) []) (state0 (Some tt))).1
  = Raise ZeroDivisionError.
Proof.
  exact (proj1 (train_batch_zero_cadence stalled_trainer (locals_at 3)
                  (mkBatch ([0.5; 0.5]%Q, ClassLabel 0) [])
                  (state0 (Some tt)) eq_refl)).
Defined.


Lemma class_weights_balance_witness :
  exists ws,
    class_weights [0; 1; 1] = Ok ws
    /\ length ws = 2
    /\ Forall (fun w => (1 <= w)%Q) ws
    /\ Exists (fun w => (w == 1)%Q) ws.
Proof.
  destruct (proj2 (class_weights_balance [0; 1; 1]) ltac:(discriminate))
    as (ws & H1 & H2 & H3 & H4 & _).
  exists ws. repeat split; assumption.
Defined.

Lemma init_rest_recognition_witness :
  init_rest (C := collaborators) (cfg "recognition" "max" true)
    (ConfiguredHead "ArcFace")
  = Raise (NameError "get_val_pair").
Proof.
  exact (init_rest_recognition (C := collaborators)
           (cfg "recognition" "max" true) (ConfiguredHead "ArcFace") eq_refl).
Defined.

Lemma argmax_first_maximum_witness :
  exists i, argmax [0.3; 0.7; 0.7]%Q = Ok i
            /\ first_maximum [0.3; 0.7; 0.7]%Q i.
Proof.
  refine (proj2 (argmax_first_maximum [0.3; 0.7; 0.7]%Q) _).
  discriminate.
Defined.


Lemma prediction_loader_batches_witness :
  exists dl,
    Predict.PredictionDataLoader_init (I := imaging) 2 4 "imgs" "list.txt"
    = Ok dl
    /\ length (Predict.DataLoader_iter dl) = 2
    /\ (forall k, k < 2 ->
          Predict.DataLoader_iter dl !! k
          = Some (Predict.deliver (I := imaging) 4
                    (Predict.fetch (Predict.dataset dl) (Predict.slice 2 3 k))))
    /\ (forall i, 3 <= i ->
          Predict.ImageList_getitem (Predict.dataset dl) i = Raise IndexError).
Proof.
  exact (PredictMore.prediction_loader_batches (I := imaging) 2 4 "imgs"
           "list.txt" _ ["a.jpg"; "/abs/b.jpg"; "c.jpg"] eq_refl eq_refl
           ltac:(lia) ltac:(lia)).
Defined.

Lemma unreadable_picture_fails_its_batch_witness :
  exists dl,
    Predict.PredictionDataLoader_init (I := imaging_truncated) 2 4 "imgs"
      "list.txt"
    = Ok dl
    /\ Predict.DataLoader_iter dl !! 1
       = Some (Raise (OSError "Caught OSError in DataLoader worker process 0. image file is truncated"))
    /\ (forall k, k < 1 ->
          exists xs, Predict.DataLoader_iter dl !! k = Some (Ok xs)
                     /\ length xs = 2).
Proof.
  refine (PredictMore.unreadable_picture_fails_its_batch
            (I := imaging_truncated) 2 4 "imgs" "list.txt" _
            ["a.jpg"; "/abs/b.jpg"; "c.jpg"; "d.jpg"] 2 "c.jpg"
            (OSError "image file is truncated")
            eq_refl eq_refl ltac:(lia) ltac:(lia) eq_refl eq_refl _).
  intros [| [| j]] r Hj Hr; [| | lia]; injection Hr as <-; reflexivity.
Defined.

Lemma prediction_loader_construction_errors_witness :
  exists msg,
    Predict.PredictionDataLoader_init (I := imaging_reparsed) 0 4 "imgs"
      "list.txt"
    = Raise (TypeError msg).
Proof.
  refine (proj1 (proj2 (PredictMore.prediction_loader_construction_errors
                          (I := imaging_reparsed) 0 4 "imgs" "list.txt"))
            _ eq_refl _).
  apply Exists_cons_hd. reflexivity.
Defined.

Lemma validation_without_batches_witness :
  is_ok (run (trainer "gender" "max" true []) (state0 (Some tt))).1 = false
  /\ saved (run (trainer "gender" "max" true []) (state0 (Some tt))).2 = [].
Proof.
  refine (proj2 (validation_without_batches (trainer "gender" "max" true [])
                   _ eq_refl) _ _ (state0 (Some tt))).
  - discriminate.
  - intros n. reflexivity.
Defined.


End MoreExamples.
